(** * vphysics_wrapper: the CPU-dispatching forwarding shim

    A shallow embedding of [vphysics_wrapper/vphysics_wrapper.cpp]: the CPUID
    based capability detector, the tier-to-module-name table, and the three
    forwarding facades ([PhysicsWrapper], [PhysicsSurfacePropsWrapper],
    [PhysicsCollisionWrapper]) together with their resolution logic.

    Everything the file reaches outside itself (the CPUID instruction, the
    tier1 module loader, the delegate objects living in the loaded module,
    the [Msg] diagnostic sink) is an external collaborator.  Its answers are
    supplied by an environment [Env]; what the shim does to it is recorded in
    a trace of [Event]s, most recent event first. *)

From Stdlib Require Import ZArith List String Bool Lia.
Import ListNotations.

Local Open Scope string_scope.
Local Open Scope list_scope.
Local Open Scope Z_scope.

Set Implicit Arguments.

(* ================================================================== *)
(** ** C values *)

(** Raw pointers are addresses; the shim only ever tests them against null
    and passes them on. *)
Definition ptr := Z.
Definition nullptr : ptr := 0.

(** Conversion of an [int] to [bool]: non-zero is true. *)
Definition bool_of_int (z : Z) : bool := negb (z =? 0).

(** A C [float], kept as its IEEE-754 bit pattern: the shim never computes
    with one. *)
Record float := Float { float_bits : Z }.

(** tier0 [Vector], returned by value from two collision queries. *)
Record Vector := { x : float; y : float; z : float }.

(** The C types that occur as return types of the wrapped interfaces.
    Integral types ([int], [unsigned int], [InitReturnVal_t]) are all read
    as [Z]; every pointer type is [ptr]. *)
Inductive ctype := c_void | c_bool | c_int | c_float | c_ptr | c_Vector.

Definition val (t : ctype) : Type :=
  match t with
  | c_void => unit
  | c_bool => bool
  | c_int => Z
  | c_float => float
  | c_ptr => ptr
  | c_Vector => Vector
  end.

(* ================================================================== *)
(** ** Capability detection *)

Inductive CPULevel_t := CPU_HAS_SSE2 | CPU_HAS_SSE42 | CPU_HAS_AVX2.

(** [int cpuInfo[4]] as filled by [GetCPUID]: element 0 is EAX, 1 is EBX,
    2 is ECX, 3 is EDX. *)
Record cpuInfo_t := { info0 : Z; info1 : Z; info2 : Z; info3 : Z }.

Module CPU.
Section Detector.
(** [GetCPUID func subfunc]: the CPUID instruction of the host. *)
Variable GetCPUID : Z -> Z -> cpuInfo_t.

Definition GetCPULevel : CPULevel_t :=
  let cpuLevel := CPU_HAS_SSE2 in
  let cpuInfo := GetCPUID 0 0 in
  let numFuncs := info0 cpuInfo in
  if numFuncs >=? 7 then
    let cpuInfo := GetCPUID 7 0 in
    let hasAVX2 := bool_of_int (Z.land (info1 cpuInfo) (Z.shiftl 1 5)) in
    if hasAVX2 then CPU_HAS_AVX2 else cpuLevel
  else
    let cpuInfo := GetCPUID 1 0 in
    let hasSSE42 := bool_of_int (Z.land (info2 cpuInfo) (Z.shiftl 1 20)) in
    if hasSSE42 then CPU_HAS_SSE42 else cpuLevel.

(** The three hardware facts the detector can look at. *)
Definition has_leaf7 : bool := info0 (GetCPUID 0 0) >=? 7.
Definition avx2_bit : bool := Z.testbit (info1 (GetCPUID 7 0)) 5.
Definition sse42_bit : bool := Z.testbit (info2 (GetCPUID 1 0)) 20.

(** The fallback ladder in the words of the specification: wide-vector
    when the extended leaf exists and its bit is set; otherwise mid-tier
    when the baseline leaf's bit is set; otherwise baseline. *)
Definition DetectTier_ladder : CPULevel_t :=
  if has_leaf7 && avx2_bit then CPU_HAS_AVX2
  else if sse42_bit then CPU_HAS_SSE42
  else CPU_HAS_SSE2.
End Detector.
End CPU.

(** [GetModuleFromCPULevel]; [DLL_EXT_STRING] is the platform's module
    suffix, a macro of the SDK headers.  The [default:] arm of the switch
    is the arm [CPU_HAS_SSE2] takes. *)
Definition GetModuleFromCPULevel (DLL_EXT_STRING : string) (level : CPULevel_t) : string :=
  match level with
  | CPU_HAS_AVX2 => ("vphysics_jolt_avx2" ++ DLL_EXT_STRING)%string
  | CPU_HAS_SSE42 => ("vphysics_jolt_sse42" ++ DLL_EXT_STRING)%string
  | _ => ("vphysics_jolt_sse2" ++ DLL_EXT_STRING)%string
  end.

(** A CPUID table with the given number of basic leaves, EBX of leaf 7 and
    ECX of leaf 1; every other register reads zero. *)
Definition cpuid_of (numFuncs ebx7 ecx1 : Z) (func subfunc : Z) : cpuInfo_t :=
  {| info0 := if func =? 0 then numFuncs else 0;
     info1 := if func =? 7 then ebx7 else 0;
     info2 := if func =? 1 then ecx1 else 0;
     info3 := 0 |}.

(** An Ivy Bridge class processor: basic leaves up to 0xD, leaf 7 without
    the AVX2 bit (EBX = 0x281), leaf 1 with SSE4.2 (ECX bit 20). *)
Definition ivy_bridge_cpuid (func subfunc : Z) : cpuInfo_t :=
  if func =? 0 then {| info0 := 13; info1 := 1970169159; info2 := 1818588270; info3 := 1231384169 |}
  else if func =? 1 then {| info0 := 198313; info1 := 34605056; info2 := 2142954431; info3 := -1075053569 |}
  else if func =? 7 then {| info0 := 0; info1 := 641; info2 := 0; info3 := 0 |}
  else {| info0 := 0; info1 := 0; info2 := 0; info3 := 0 |}.

(* ================================================================== *)
(** ** The wrapped interfaces

    One constructor per virtual method, carrying the method's arguments and
    indexed by its return type.  Arguments keep the parameter names of the
    wrapper's definitions ([end_] and [ptr_] for [end] and [ptr]).  The two
    overload sets of the collision interface get one constructor per
    overload. *)

Module IPhysics.
Inductive method : ctype -> Type :=
| Connect (factory : ptr) : method c_bool
| Disconnect : method c_void
| Init : method c_int
| Shutdown : method c_void
| QueryInterface (pInterfaceName : ptr) : method c_ptr
| CreateEnvironment : method c_ptr
| DestroyEnvironment (pEnvironment : ptr) : method c_void
| GetActiveEnvironmentByIndex (index : Z) : method c_ptr
| CreateObjectPairHash : method c_ptr
| DestroyObjectPairHash (pHash : ptr) : method c_void
| FindOrCreateCollisionSet (id maxElementCount : Z) : method c_ptr
| FindCollisionSet (id : Z) : method c_ptr
| DestroyAllCollisionSets : method c_void.
End IPhysics.

Module IJoltPhysicsSurfaceProps.
Inductive method : ctype -> Type :=
| ParseSurfaceData (pFilename pTextfile : ptr) : method c_int
| SurfacePropCount : method c_int
| GetSurfaceIndex (pSurfacePropName : ptr) : method c_int
| GetPhysicsProperties (surfaceDataIndex : Z) (density thickness friction elasticity : ptr) : method c_void
| GetSurfaceData (surfaceDataIndex : Z) : method c_ptr
| GetString (stringTableIndex : Z) : method c_ptr
| GetPropName (surfaceDataIndex : Z) : method c_ptr
| SetWorldMaterialIndexTable (pMapArray : ptr) (mapSize : Z) : method c_void
| GetPhysicsParameters (surfaceDataIndex : Z) (pParamsOut : ptr) : method c_void
| GetMaterialIndexDataOps : method c_ptr
| GetIVPMaterial (nIndex : Z) : method c_ptr
| GetIVPMaterialIndex (pMaterial : ptr) : method c_int
| GetIVPManager : method c_ptr
| RemapIVPMaterialIndex (nIndex : Z) : method c_int
| GetReservedMaterialName (nMaterialIndex : Z) : method c_ptr.
End IJoltPhysicsSurfaceProps.

Module IJoltPhysicsCollision.
Inductive method : ctype -> Type :=
| ConvexFromVerts (pVerts : ptr) (vertCount : Z) : method c_ptr
| ConvexFromPlanes (pPlanes : ptr) (planeCount : Z) (mergeDistance : float) : method c_ptr
| ConvexVolume (pConvex : ptr) : method c_float
| ConvexSurfaceArea (pConvex : ptr) : method c_float
| SetConvexGameData (pConvex : ptr) (gameData : Z) : method c_void
| ConvexFree (pConvex : ptr) : method c_void
| BBoxToConvex (mins maxs : ptr) : method c_ptr
| ConvexFromConvexPolyhedron (ConvexPolyhedron : ptr) : method c_ptr
| ConvexesFromConvexPolygon (vPolyNormal pPoints : ptr) (iPointCount : Z) (pOutput : ptr) : method c_void
| PolysoupCreate : method c_ptr
| PolysoupDestroy (pSoup : ptr) : method c_void
| PolysoupAddTriangle (pSoup a b c : ptr) (materialIndex7bits : Z) : method c_void
| ConvertPolysoupToCollide (pSoup : ptr) (useMOPP : bool) : method c_ptr
| ConvertConvexToCollide (pConvex : ptr) (convexCount : Z) : method c_ptr
| ConvertConvexToCollideParams (pConvex : ptr) (convexCount : Z) (convertParams : ptr) : method c_ptr
| DestroyCollide (pCollide : ptr) : method c_void
| CollideSize (pCollide : ptr) : method c_int
| CollideWrite (pDest pCollide : ptr) (bSwap : bool) : method c_int
| UnserializeCollide (pBuffer : ptr) (size index : Z) : method c_ptr
| CollideVolume (pCollide : ptr) : method c_float
| CollideSurfaceArea (pCollide : ptr) : method c_float
| CollideGetExtent (pCollide collideOrigin collideAngles direction : ptr) : method c_Vector
| CollideGetAABB (pMins pMaxs pCollide collideOrigin collideAngles : ptr) : method c_void
| CollideGetMassCenter (pCollide pOutMassCenter : ptr) : method c_void
| CollideSetMassCenter (pCollide massCenter : ptr) : method c_void
| CollideGetOrthographicAreas (pCollide : ptr) : method c_Vector
| CollideSetOrthographicAreas (pCollide areas : ptr) : method c_void
| CollideIndex (pCollide : ptr) : method c_int
| BBoxToCollide (mins maxs : ptr) : method c_ptr
| GetConvexesUsedInCollideable (pCollideable pOutputArray : ptr) (iOutputArrayLimit : Z) : method c_int
| TraceBox (start end_ mins maxs pCollide collideOrigin collideAngles ptr_ : ptr) : method c_void
| TraceBox_ray (ray pCollide collideOrigin collideAngles ptr_ : ptr) : method c_void
| TraceBox_mask (ray : ptr) (contentsMask : Z) (pConvexInfo pCollide collideOrigin collideAngles ptr_ : ptr) : method c_void
| TraceCollide (start end_ pSweepCollide sweepAngles pCollide collideOrigin collideAngles ptr_ : ptr) : method c_void
| IsBoxIntersectingCone (boxAbsMins boxAbsMaxs cone : ptr) : method c_bool
| VCollideLoad (pOutput : ptr) (solidCount : Z) (pBuffer : ptr) (size : Z) (swap : bool) : method c_void
| VCollideUnload (pVCollide : ptr) : method c_void
| VPhysicsKeyParserCreate (pKeyData : ptr) : method c_ptr
| VPhysicsKeyParserCreate_vcollide (pVCollide : ptr) : method c_ptr
| VPhysicsKeyParserDestroy (pParser : ptr) : method c_void
| CreateDebugMesh (pCollisionModel outVerts : ptr) : method c_int
| DestroyDebugMesh (vertCount : Z) (outVerts : ptr) : method c_void
| CreateQueryModel (pCollide : ptr) : method c_ptr
| DestroyQueryModel (pQuery : ptr) : method c_void
| ThreadContextCreate : method c_ptr
| ThreadContextDestroy (pThreadContex : ptr) : method c_void
| CreateVirtualMesh (params : ptr) : method c_ptr
| SupportsVirtualMesh : method c_bool
| GetBBoxCacheSize (pCachedSize pCachedCount : ptr) : method c_bool
| PolyhedronFromConvex (pConvex : ptr) (bUseTempPolyhedron : bool) : method c_ptr
| OutputDebugInfo (pCollide : ptr) : method c_void
| ReadStat (statID : Z) : method c_int
| CollideGetRadius (pCollide : ptr) : method c_float
| VCollideAllocUserData (pVCollide : ptr) (userDataSize : Z) : method c_ptr
| VCollideFreeUserData (pVCollide : ptr) : method c_void
| VCollideCheck (pVCollide pName : ptr) : method c_void
| TraceBoxAA (ray pCollide ptr_ : ptr) : method c_bool
| DuplicateAndScale (pOut pIn : ptr) (flScale : float) : method c_void.
End IJoltPhysicsCollision.

(** A virtual call on a delegate of one of the three interfaces. *)
Inductive Call : ctype -> Type :=
  | OnPhysics (t : ctype) (m : IPhysics.method t) : Call t
  | OnSurfaceProps (t : ctype) (m : IJoltPhysicsSurfaceProps.method t) : Call t
  | OnCollision (t : ctype) (m : IJoltPhysicsCollision.method t) : Call t.

(* ================================================================== *)
(** ** The outside world *)

(** What the shim does to its collaborators. *)
Inductive Event :=
  | EvLoad (pModuleName pInterfaceVersionName : string)  (* Sys_LoadInterface *)
  | EvUnload (pModule : ptr)                             (* Sys_UnloadModule *)
  | EvMsg (pMsgFormat arg : string)                      (* Msg *)
  | EvCall (pDelegate : ptr) (t : ctype) (c : Call t).   (* pDelegate->m(...) *)

Definition Trace := list Event.

Definition is_load (e : Event) : bool :=
  match e with EvLoad _ _ => true | _ => false end.
Definition is_call (e : Event) : bool :=
  match e with EvCall _ _ => true | _ => false end.
Definition is_msg (e : Event) : bool :=
  match e with EvMsg _ _ => true | _ => false end.
Definition is_unload (e : Event) : bool :=
  match e with EvUnload _ => true | _ => false end.

(** Number of module loads, and of calls that reached a delegate. *)
Definition loads (t : Trace) : nat := List.length (filter is_load t).
Definition calls (t : Trace) : nat := List.length (filter is_call t).

(** What the collaborators answer.  Every answer may depend on all that
    happened before (the trace), so a loader may fail once and succeed
    later, and a delegate may answer the same call differently over time.

    [load_result] is what the tier1 loader finds for a module name and an
    interface version: a module handle and the pointer its factory gives
    for that interface, or [None] when the module cannot be loaded. *)
Record Env := {
  GetCPUID : Z -> Z -> cpuInfo_t;
  DLL_EXT_STRING : string;
  VPHYSICS_INTERFACE_VERSION : string;
  VPHYSICS_SURFACEPROPS_INTERFACE_VERSION : string;
  VPHYSICS_COLLISION_INTERFACE_VERSION : string;
  load_result : Trace -> string -> string -> option (ptr * ptr);
  respond : forall t : ctype, Trace -> ptr -> Call t -> val t
}.

(* ================================================================== *)
(** ** Running a member function

    A member function of a facade of type [S] reads and writes the facade's
    fields and extends the trace.  Calling through a null delegate pointer
    is undefined behaviour: execution stops in [NullDeref] and nothing that
    follows is modelled. *)

Inductive Outcome (S A : Type) :=
  | Returns (a : A) (self : S) (t : Trace)
  | NullDeref (t : Trace).
Arguments NullDeref {S A} t.

Definition M (S A : Type) := S -> Trace -> Outcome S A.

Definition ret {S A} (a : A) : M S A := fun self t => Returns a self t.

Definition bind {S A B} (c : M S A) (k : A -> M S B) : M S B :=
  fun self t =>
    match c self t with
    | Returns a self' t' => k a self' t'
    | NullDeref t' => NullDeref t'
    end.

Declare Scope shim_scope.
Delimit Scope shim_scope with shim.
Notation "v <- c ;; k" := (bind c (fun v => k))
  (at level 100, c at next level, right associativity) : shim_scope.
Notation "c ;; k" := (bind c (fun _ => k))
  (at level 100, right associativity) : shim_scope.
Local Open Scope shim_scope.

Definition gets {S A} (f : S -> A) : M S A := fun self t => Returns (f self) self t.
Definition emit {S} (e : Event) : M S unit := fun self t => Returns tt self (e :: t).

(** [Msg( fmt, arg )].  The entry diagnostics pass [__FUNCTION__], rendered
    here as the bare function name; no property depends on the text. *)
Definition Msg {S} (pMsgFormat arg : string) : M S unit := emit (EvMsg pMsgFormat arg).
Definition Sys_UnloadModule {S} (pModule : ptr) : M S unit := emit (EvUnload pModule).

(** The trace an outcome ends with, and the facade it leaves (if any). *)
Definition trace_of {S A} (o : Outcome S A) : Trace :=
  match o with Returns _ _ t => t | NullDeref t => t end.
Definition returned {S A} (o : Outcome S A) : option A :=
  match o with Returns a _ _ => Some a | NullDeref _ => None end.
Definition facade_of {S A} (o : Outcome S A) : option S :=
  match o with Returns _ self _ => Some self | NullDeref _ => None end.

Section Collaborators.
Variable E : Env.

Definition GetCPULevel : CPULevel_t := CPU.GetCPULevel (GetCPUID E).

(** The module every facade asks the loader for. *)
Definition selected_module : string :=
  GetModuleFromCPULevel (DLL_EXT_STRING E) GetCPULevel.

(** Modelled from the spec: the outcome of tier1's [Sys_LoadInterface]
    (declared in tier1/interface.h, outside this translation unit).
    Resolution yields a module handle and a delegate, or fails: the module
    cannot be loaded, or it is loaded but does not export the requested
    interface (its factory gives a null pointer).  This is what a load
    attempted after [t] yields. *)
Definition Sys_LoadInterface_result (name version : string) (t : Trace)
    : option (ptr * ptr) :=
  match load_result E t name version with
  | Some (pModule, pInterface) =>
      if pInterface =? nullptr then None else Some (pModule, pInterface)
  | None => None
  end.

(** Modelled from the spec: [Sys_LoadInterface( name, version, &module,
    &interface )] of tier1.  It records the attempt; when resolution
    succeeds it stores the module handle and the delegate in the two
    out-parameters (fields of the facade, written through [setModule] and
    [setInterface]) and returns true; when it fails it returns false and
    leaves the fields as they were. *)
Definition Sys_LoadInterface {S} (name version : string)
    (setModule setInterface : ptr -> S -> S) : M S bool :=
  fun self t =>
    let t' := EvLoad name version :: t in
    match Sys_LoadInterface_result name version t with
    | Some (pModule, pInterface) =>
        Returns true (setInterface pInterface (setModule pModule self)) t'
    | None => Returns false self t'
    end.

(** [pDelegate->m( args )]. *)
Definition vcall {S} (pDelegate : ptr) (t : ctype) (c : Call t) : M S (val t) :=
  fun self tr =>
    if pDelegate =? nullptr then NullDeref tr
    else Returns (respond E tr pDelegate c) self (EvCall pDelegate c :: tr).
End Collaborators.

(* ================================================================== *)
(** ** PhysicsWrapper: the environment facade *)

Module PhysicsWrapper.
Record this := {
  m_pActualPhysicsModule : ptr;
  m_pActualPhysicsInterface : ptr
}.

(** [s_PhysicsInterface]: a static object of a class without a
    constructor of its own, hence zero-initialised. *)
Definition s_PhysicsInterface : this :=
  {| m_pActualPhysicsModule := nullptr; m_pActualPhysicsInterface := nullptr |}.

Definition set_module (p : ptr) (self : this) : this :=
  {| m_pActualPhysicsModule := p;
     m_pActualPhysicsInterface := m_pActualPhysicsInterface self |}.
Definition set_interface (p : ptr) (self : this) : this :=
  {| m_pActualPhysicsModule := m_pActualPhysicsModule self;
     m_pActualPhysicsInterface := p |}.

Section Methods.
Variable E : Env.

(** [m_pActualPhysicsInterface->m( ... )] *)
Definition forward (t : ctype) (m : IPhysics.method t) : M this (val t) :=
  pDelegate <- gets m_pActualPhysicsInterface ;;
  vcall E pDelegate (OnPhysics m).

Definition InitWrapper : M this bool :=
  pDelegate <- gets m_pActualPhysicsInterface ;;
  if negb (pDelegate =? nullptr) then ret true
  else
    let pModuleName := GetModuleFromCPULevel (DLL_EXT_STRING E) (GetCPULevel E) in
    ok <- Sys_LoadInterface E pModuleName (VPHYSICS_INTERFACE_VERSION E)
            set_module set_interface ;;
    if negb ok then ret false else ret true.

Definition Connect (factory : ptr) : M this bool :=
  ok <- InitWrapper ;;
  if negb ok then ret false
  else forward (IPhysics.Connect factory).

Definition Disconnect : M this unit :=
  forward IPhysics.Disconnect ;;
  pModule <- gets m_pActualPhysicsModule ;;
  Sys_UnloadModule pModule.

Definition Init : M this Z :=
  forward IPhysics.Init.

Definition Shutdown : M this unit :=
  forward IPhysics.Shutdown.

Definition QueryInterface (pInterfaceName : ptr) : M this ptr :=
  ok <- InitWrapper ;;
  if negb ok then ret nullptr
  else forward (IPhysics.QueryInterface pInterfaceName).

Definition CreateEnvironment : M this ptr :=
  forward IPhysics.CreateEnvironment.

Definition DestroyEnvironment (pEnvironment : ptr) : M this unit :=
  forward (IPhysics.DestroyEnvironment pEnvironment).

Definition GetActiveEnvironmentByIndex (index : Z) : M this ptr :=
  forward (IPhysics.GetActiveEnvironmentByIndex index).

Definition CreateObjectPairHash : M this ptr :=
  forward IPhysics.CreateObjectPairHash.

Definition DestroyObjectPairHash (pHash : ptr) : M this unit :=
  forward (IPhysics.DestroyObjectPairHash pHash).

Definition FindOrCreateCollisionSet (id maxElementCount : Z) : M this ptr :=
  forward (IPhysics.FindOrCreateCollisionSet id maxElementCount).

Definition FindCollisionSet (id : Z) : M this ptr :=
  forward (IPhysics.FindCollisionSet id).

Definition DestroyAllCollisionSets : M this unit :=
  forward IPhysics.DestroyAllCollisionSets.

(** The facade seen through [IPhysics]: a virtual call of [m] on the
    facade runs the override of that name. *)
Definition invoke (t : ctype) (m : IPhysics.method t) : M this (val t) :=
  match m in IPhysics.method t0 return M this (val t0) with
  | IPhysics.Connect factory => Connect factory
  | IPhysics.Disconnect => Disconnect
  | IPhysics.Init => Init
  | IPhysics.Shutdown => Shutdown
  | IPhysics.QueryInterface pInterfaceName => QueryInterface pInterfaceName
  | IPhysics.CreateEnvironment => CreateEnvironment
  | IPhysics.DestroyEnvironment pEnvironment => DestroyEnvironment pEnvironment
  | IPhysics.GetActiveEnvironmentByIndex index => GetActiveEnvironmentByIndex index
  | IPhysics.CreateObjectPairHash => CreateObjectPairHash
  | IPhysics.DestroyObjectPairHash pHash => DestroyObjectPairHash pHash
  | IPhysics.FindOrCreateCollisionSet id maxElementCount => FindOrCreateCollisionSet id maxElementCount
  | IPhysics.FindCollisionSet id => FindCollisionSet id
  | IPhysics.DestroyAllCollisionSets => DestroyAllCollisionSets
  end.
End Methods.
End PhysicsWrapper.


(* ================================================================== *)
(** ** PhysicsSurfacePropsWrapper: the surface-properties facade *)

Module PhysicsSurfacePropsWrapper.
Record this := {
  m_pActualPhysicsSurfacePropsModule : ptr;
  m_pActualPhysicsSurfacePropsInterface : ptr
}.

(** The static storage of [s_PhysicsSurfaceProps] before its constructor runs. *)
Definition zeroed : this :=
  {| m_pActualPhysicsSurfacePropsModule := nullptr; m_pActualPhysicsSurfacePropsInterface := nullptr |}.

Definition set_module (p : ptr) (self : this) : this :=
  {| m_pActualPhysicsSurfacePropsModule := p;
     m_pActualPhysicsSurfacePropsInterface := m_pActualPhysicsSurfacePropsInterface self |}.
Definition set_interface (p : ptr) (self : this) : this :=
  {| m_pActualPhysicsSurfacePropsModule := m_pActualPhysicsSurfacePropsModule self;
     m_pActualPhysicsSurfacePropsInterface := p |}.

Section Methods.
Variable E : Env.

(** [m_pActualPhysicsSurfacePropsInterface->m( ... )] *)
Definition forward (t : ctype) (m : IJoltPhysicsSurfaceProps.method t) : M this (val t) :=
  pDelegate <- gets m_pActualPhysicsSurfacePropsInterface ;;
  vcall E pDelegate (OnSurfaceProps m).

(** [PhysicsSurfacePropsWrapper::PhysicsSurfacePropsWrapper()] *)
Definition constructor : M this unit :=
  Msg "Debug: Entering %s\n" "PhysicsSurfacePropsWrapper" ;;
  pDelegate <- gets m_pActualPhysicsSurfacePropsInterface ;;
  if negb (pDelegate =? nullptr) then ret tt
  else
    let pModuleName := GetModuleFromCPULevel (DLL_EXT_STRING E) (GetCPULevel E) in
    ok <- Sys_LoadInterface E pModuleName (VPHYSICS_SURFACEPROPS_INTERFACE_VERSION E)
            set_module set_interface ;;
    if negb ok then Msg "Failed to load %s\n" pModuleName else ret tt.

(** [PhysicsSurfacePropsWrapper::~PhysicsSurfacePropsWrapper()] *)
Definition destructor : M this unit :=
  Msg "Debug: Entering %s\n" "~PhysicsSurfacePropsWrapper" ;;
  pModule <- gets m_pActualPhysicsSurfacePropsModule ;;
  Sys_UnloadModule pModule.

(** [s_PhysicsSurfaceProps = {}]: the singleton as static initialisation leaves it,
    with the trace of what its construction did. *)
Definition s_PhysicsSurfaceProps : Outcome this unit := constructor zeroed [].

Definition ParseSurfaceData (pFilename pTextfile : ptr) : M this Z :=
  Msg "Debug: Entering %s\n" "ParseSurfaceData" ;;
  forward (IJoltPhysicsSurfaceProps.ParseSurfaceData pFilename pTextfile).

Definition SurfacePropCount : M this Z :=
  Msg "Debug: Entering %s\n" "SurfacePropCount" ;;
  forward IJoltPhysicsSurfaceProps.SurfacePropCount.

Definition GetSurfaceIndex (pSurfacePropName : ptr) : M this Z :=
  Msg "Debug: Entering %s\n" "GetSurfaceIndex" ;;
  forward (IJoltPhysicsSurfaceProps.GetSurfaceIndex pSurfacePropName).

Definition GetPhysicsProperties (surfaceDataIndex : Z) (density thickness friction elasticity : ptr) : M this unit :=
  Msg "Debug: Entering %s\n" "GetPhysicsProperties" ;;
  forward (IJoltPhysicsSurfaceProps.GetPhysicsProperties surfaceDataIndex density thickness friction elasticity).

Definition GetSurfaceData (surfaceDataIndex : Z) : M this ptr :=
  Msg "Debug: Entering %s\n" "GetSurfaceData" ;;
  forward (IJoltPhysicsSurfaceProps.GetSurfaceData surfaceDataIndex).

Definition GetString (stringTableIndex : Z) : M this ptr :=
  Msg "Debug: Entering %s\n" "GetString" ;;
  forward (IJoltPhysicsSurfaceProps.GetString stringTableIndex).

Definition GetPropName (surfaceDataIndex : Z) : M this ptr :=
  Msg "Debug: Entering %s\n" "GetPropName" ;;
  forward (IJoltPhysicsSurfaceProps.GetPropName surfaceDataIndex).

Definition SetWorldMaterialIndexTable (pMapArray : ptr) (mapSize : Z) : M this unit :=
  Msg "Debug: Entering %s\n" "SetWorldMaterialIndexTable" ;;
  forward (IJoltPhysicsSurfaceProps.SetWorldMaterialIndexTable pMapArray mapSize).

Definition GetPhysicsParameters (surfaceDataIndex : Z) (pParamsOut : ptr) : M this unit :=
  Msg "Debug: Entering %s\n" "GetPhysicsParameters" ;;
  forward (IJoltPhysicsSurfaceProps.GetPhysicsParameters surfaceDataIndex pParamsOut).

Definition GetMaterialIndexDataOps : M this ptr :=
  Msg "Debug: Entering %s\n" "GetMaterialIndexDataOps" ;;
  forward IJoltPhysicsSurfaceProps.GetMaterialIndexDataOps.

Definition GetIVPMaterial (nIndex : Z) : M this ptr :=
  Msg "Debug: Entering %s\n" "GetIVPMaterial" ;;
  forward (IJoltPhysicsSurfaceProps.GetIVPMaterial nIndex).

Definition GetIVPMaterialIndex (pMaterial : ptr) : M this Z :=
  Msg "Debug: Entering %s\n" "GetIVPMaterialIndex" ;;
  forward (IJoltPhysicsSurfaceProps.GetIVPMaterialIndex pMaterial).

Definition GetIVPManager : M this ptr :=
  Msg "Debug: Entering %s\n" "GetIVPManager" ;;
  forward IJoltPhysicsSurfaceProps.GetIVPManager.

Definition RemapIVPMaterialIndex (nIndex : Z) : M this Z :=
  Msg "Debug: Entering %s\n" "RemapIVPMaterialIndex" ;;
  forward (IJoltPhysicsSurfaceProps.RemapIVPMaterialIndex nIndex).

Definition GetReservedMaterialName (nMaterialIndex : Z) : M this ptr :=
  Msg "Debug: Entering %s\n" "GetReservedMaterialName" ;;
  forward (IJoltPhysicsSurfaceProps.GetReservedMaterialName nMaterialIndex).

(** The facade seen through its interface. *)
Definition invoke (t : ctype) (m : IJoltPhysicsSurfaceProps.method t) : M this (val t) :=
  match m in IJoltPhysicsSurfaceProps.method t0 return M this (val t0) with
  | IJoltPhysicsSurfaceProps.ParseSurfaceData pFilename pTextfile => ParseSurfaceData pFilename pTextfile
  | IJoltPhysicsSurfaceProps.SurfacePropCount => SurfacePropCount
  | IJoltPhysicsSurfaceProps.GetSurfaceIndex pSurfacePropName => GetSurfaceIndex pSurfacePropName
  | IJoltPhysicsSurfaceProps.GetPhysicsProperties surfaceDataIndex density thickness friction elasticity => GetPhysicsProperties surfaceDataIndex density thickness friction elasticity
  | IJoltPhysicsSurfaceProps.GetSurfaceData surfaceDataIndex => GetSurfaceData surfaceDataIndex
  | IJoltPhysicsSurfaceProps.GetString stringTableIndex => GetString stringTableIndex
  | IJoltPhysicsSurfaceProps.GetPropName surfaceDataIndex => GetPropName surfaceDataIndex
  | IJoltPhysicsSurfaceProps.SetWorldMaterialIndexTable pMapArray mapSize => SetWorldMaterialIndexTable pMapArray mapSize
  | IJoltPhysicsSurfaceProps.GetPhysicsParameters surfaceDataIndex pParamsOut => GetPhysicsParameters surfaceDataIndex pParamsOut
  | IJoltPhysicsSurfaceProps.GetMaterialIndexDataOps => GetMaterialIndexDataOps
  | IJoltPhysicsSurfaceProps.GetIVPMaterial nIndex => GetIVPMaterial nIndex
  | IJoltPhysicsSurfaceProps.GetIVPMaterialIndex pMaterial => GetIVPMaterialIndex pMaterial
  | IJoltPhysicsSurfaceProps.GetIVPManager => GetIVPManager
  | IJoltPhysicsSurfaceProps.RemapIVPMaterialIndex nIndex => RemapIVPMaterialIndex nIndex
  | IJoltPhysicsSurfaceProps.GetReservedMaterialName nMaterialIndex => GetReservedMaterialName nMaterialIndex
  end.
End Methods.
End PhysicsSurfacePropsWrapper.


(* ================================================================== *)
(** ** PhysicsCollisionWrapper: the collision facade *)

Module PhysicsCollisionWrapper.
Record this := {
  m_pActualPhysicsCollisionModule : ptr;
  m_pActualPhysicsCollisionInterface : ptr
}.

(** The static storage of [s_PhysicsCollision] before its constructor runs. *)
Definition zeroed : this :=
  {| m_pActualPhysicsCollisionModule := nullptr; m_pActualPhysicsCollisionInterface := nullptr |}.

Definition set_module (p : ptr) (self : this) : this :=
  {| m_pActualPhysicsCollisionModule := p;
     m_pActualPhysicsCollisionInterface := m_pActualPhysicsCollisionInterface self |}.
Definition set_interface (p : ptr) (self : this) : this :=
  {| m_pActualPhysicsCollisionModule := m_pActualPhysicsCollisionModule self;
     m_pActualPhysicsCollisionInterface := p |}.

Section Methods.
Variable E : Env.

(** [m_pActualPhysicsCollisionInterface->m( ... )] *)
Definition forward (t : ctype) (m : IJoltPhysicsCollision.method t) : M this (val t) :=
  pDelegate <- gets m_pActualPhysicsCollisionInterface ;;
  vcall E pDelegate (OnCollision m).

(** [PhysicsCollisionWrapper::PhysicsCollisionWrapper()] *)
Definition constructor : M this unit :=
  Msg "Debug: Entering %s\n" "PhysicsCollisionWrapper" ;;
  pDelegate <- gets m_pActualPhysicsCollisionInterface ;;
  if negb (pDelegate =? nullptr) then ret tt
  else
    let pModuleName := GetModuleFromCPULevel (DLL_EXT_STRING E) (GetCPULevel E) in
    ok <- Sys_LoadInterface E pModuleName (VPHYSICS_COLLISION_INTERFACE_VERSION E)
            set_module set_interface ;;
    if negb ok then Msg "Failed to load %s\n" pModuleName else ret tt.

(** [PhysicsCollisionWrapper::~PhysicsCollisionWrapper()] *)
Definition destructor : M this unit :=
  Msg "Debug: Entering %s\n" "~PhysicsCollisionWrapper" ;;
  pModule <- gets m_pActualPhysicsCollisionModule ;;
  Sys_UnloadModule pModule.

(** [s_PhysicsCollision = {}]: the singleton as static initialisation leaves it,
    with the trace of what its construction did. *)
Definition s_PhysicsCollision : Outcome this unit := constructor zeroed [].

Definition ConvexFromVerts (pVerts : ptr) (vertCount : Z) : M this ptr :=
  Msg "Debug: Entering %s\n" "ConvexFromVerts" ;;
  forward (IJoltPhysicsCollision.ConvexFromVerts pVerts vertCount).

Definition ConvexFromPlanes (pPlanes : ptr) (planeCount : Z) (mergeDistance : float) : M this ptr :=
  Msg "Debug: Entering %s\n" "ConvexFromPlanes" ;;
  forward (IJoltPhysicsCollision.ConvexFromPlanes pPlanes planeCount mergeDistance).

Definition ConvexVolume (pConvex : ptr) : M this float :=
  Msg "Debug: Entering %s\n" "ConvexVolume" ;;
  forward (IJoltPhysicsCollision.ConvexVolume pConvex).

Definition ConvexSurfaceArea (pConvex : ptr) : M this float :=
  Msg "Debug: Entering %s\n" "ConvexSurfaceArea" ;;
  forward (IJoltPhysicsCollision.ConvexSurfaceArea pConvex).

Definition SetConvexGameData (pConvex : ptr) (gameData : Z) : M this unit :=
  Msg "Debug: Entering %s\n" "SetConvexGameData" ;;
  forward (IJoltPhysicsCollision.SetConvexGameData pConvex gameData).

Definition ConvexFree (pConvex : ptr) : M this unit :=
  forward (IJoltPhysicsCollision.ConvexFree pConvex).

Definition BBoxToConvex (mins maxs : ptr) : M this ptr :=
  Msg "Debug: Entering %s\n" "BBoxToConvex" ;;
  forward (IJoltPhysicsCollision.BBoxToConvex mins maxs).

Definition ConvexFromConvexPolyhedron (ConvexPolyhedron : ptr) : M this ptr :=
  Msg "Debug: Entering %s\n" "ConvexFromConvexPolyhedron" ;;
  forward (IJoltPhysicsCollision.ConvexFromConvexPolyhedron ConvexPolyhedron).

Definition ConvexesFromConvexPolygon (vPolyNormal pPoints : ptr) (iPointCount : Z) (pOutput : ptr) : M this unit :=
  Msg "Debug: Entering %s\n" "ConvexesFromConvexPolygon" ;;
  forward (IJoltPhysicsCollision.ConvexesFromConvexPolygon vPolyNormal pPoints iPointCount pOutput).

Definition PolysoupCreate : M this ptr :=
  Msg "Debug: Entering %s\n" "PolysoupCreate" ;;
  forward IJoltPhysicsCollision.PolysoupCreate.

Definition PolysoupDestroy (pSoup : ptr) : M this unit :=
  Msg "Debug: Entering %s\n" "PolysoupDestroy" ;;
  forward (IJoltPhysicsCollision.PolysoupDestroy pSoup).

Definition PolysoupAddTriangle (pSoup a b c : ptr) (materialIndex7bits : Z) : M this unit :=
  Msg "Debug: Entering %s\n" "PolysoupAddTriangle" ;;
  forward (IJoltPhysicsCollision.PolysoupAddTriangle pSoup a b c materialIndex7bits).

Definition ConvertPolysoupToCollide (pSoup : ptr) (useMOPP : bool) : M this ptr :=
  Msg "Debug: Entering %s\n" "ConvertPolysoupToCollide" ;;
  forward (IJoltPhysicsCollision.ConvertPolysoupToCollide pSoup useMOPP).

Definition ConvertConvexToCollide (pConvex : ptr) (convexCount : Z) : M this ptr :=
  Msg "Debug: Entering %s\n" "ConvertConvexToCollide" ;;
  forward (IJoltPhysicsCollision.ConvertConvexToCollide pConvex convexCount).

Definition ConvertConvexToCollideParams (pConvex : ptr) (convexCount : Z) (convertParams : ptr) : M this ptr :=
  Msg "Debug: Entering %s\n" "ConvertConvexToCollideParams" ;;
  forward (IJoltPhysicsCollision.ConvertConvexToCollideParams pConvex convexCount convertParams).

Definition DestroyCollide (pCollide : ptr) : M this unit :=
  Msg "Debug: Entering %s\n" "DestroyCollide" ;;
  forward (IJoltPhysicsCollision.DestroyCollide pCollide).

Definition CollideSize (pCollide : ptr) : M this Z :=
  Msg "Debug: Entering %s\n" "CollideSize" ;;
  forward (IJoltPhysicsCollision.CollideSize pCollide).

Definition CollideWrite (pDest pCollide : ptr) (bSwap : bool) : M this Z :=
  Msg "Debug: Entering %s\n" "CollideWrite" ;;
  forward (IJoltPhysicsCollision.CollideWrite pDest pCollide bSwap).

Definition UnserializeCollide (pBuffer : ptr) (size index : Z) : M this ptr :=
  Msg "Debug: Entering %s\n" "UnserializeCollide" ;;
  forward (IJoltPhysicsCollision.UnserializeCollide pBuffer size index).

Definition CollideVolume (pCollide : ptr) : M this float :=
  Msg "Debug: Entering %s\n" "CollideVolume" ;;
  forward (IJoltPhysicsCollision.CollideVolume pCollide).

Definition CollideSurfaceArea (pCollide : ptr) : M this float :=
  Msg "Debug: Entering %s\n" "CollideSurfaceArea" ;;
  forward (IJoltPhysicsCollision.CollideSurfaceArea pCollide).

Definition CollideGetExtent (pCollide collideOrigin collideAngles direction : ptr) : M this Vector :=
  Msg "Debug: Entering %s\n" "CollideGetExtent" ;;
  forward (IJoltPhysicsCollision.CollideGetExtent pCollide collideOrigin collideAngles direction).

Definition CollideGetAABB (pMins pMaxs pCollide collideOrigin collideAngles : ptr) : M this unit :=
  Msg "Debug: Entering %s\n" "CollideGetAABB" ;;
  forward (IJoltPhysicsCollision.CollideGetAABB pMins pMaxs pCollide collideOrigin collideAngles).

Definition CollideGetMassCenter (pCollide pOutMassCenter : ptr) : M this unit :=
  Msg "Debug: Entering %s\n" "CollideGetMassCenter" ;;
  forward (IJoltPhysicsCollision.CollideGetMassCenter pCollide pOutMassCenter).

Definition CollideSetMassCenter (pCollide massCenter : ptr) : M this unit :=
  Msg "Debug: Entering %s\n" "CollideSetMassCenter" ;;
  forward (IJoltPhysicsCollision.CollideSetMassCenter pCollide massCenter).

Definition CollideGetOrthographicAreas (pCollide : ptr) : M this Vector :=
  Msg "Debug: Entering %s\n" "CollideGetOrthographicAreas" ;;
  forward (IJoltPhysicsCollision.CollideGetOrthographicAreas pCollide).

Definition CollideSetOrthographicAreas (pCollide areas : ptr) : M this unit :=
  Msg "Debug: Entering %s\n" "CollideSetOrthographicAreas" ;;
  forward (IJoltPhysicsCollision.CollideSetOrthographicAreas pCollide areas).

Definition CollideIndex (pCollide : ptr) : M this Z :=
  Msg "Debug: Entering %s\n" "CollideIndex" ;;
  forward (IJoltPhysicsCollision.CollideIndex pCollide).

Definition BBoxToCollide (mins maxs : ptr) : M this ptr :=
  Msg "Debug: Entering %s\n" "BBoxToCollide" ;;
  forward (IJoltPhysicsCollision.BBoxToCollide mins maxs).

Definition GetConvexesUsedInCollideable (pCollideable pOutputArray : ptr) (iOutputArrayLimit : Z) : M this Z :=
  Msg "Debug: Entering %s\n" "GetConvexesUsedInCollideable" ;;
  forward (IJoltPhysicsCollision.GetConvexesUsedInCollideable pCollideable pOutputArray iOutputArrayLimit).

Definition TraceBox (start end_ mins maxs pCollide collideOrigin collideAngles ptr_ : ptr) : M this unit :=
  Msg "Debug: Entering %s\n" "TraceBox" ;;
  forward (IJoltPhysicsCollision.TraceBox start end_ mins maxs pCollide collideOrigin collideAngles ptr_).

Definition TraceBox_ray (ray pCollide collideOrigin collideAngles ptr_ : ptr) : M this unit :=
  Msg "Debug: Entering %s\n" "TraceBox" ;;
  forward (IJoltPhysicsCollision.TraceBox_ray ray pCollide collideOrigin collideAngles ptr_).

Definition TraceBox_mask (ray : ptr) (contentsMask : Z) (pConvexInfo pCollide collideOrigin collideAngles ptr_ : ptr) : M this unit :=
  Msg "Debug: Entering %s\n" "TraceBox" ;;
  forward (IJoltPhysicsCollision.TraceBox_mask ray contentsMask pConvexInfo pCollide collideOrigin collideAngles ptr_).

Definition TraceCollide (start end_ pSweepCollide sweepAngles pCollide collideOrigin collideAngles ptr_ : ptr) : M this unit :=
  Msg "Debug: Entering %s\n" "TraceCollide" ;;
  forward (IJoltPhysicsCollision.TraceCollide start end_ pSweepCollide sweepAngles pCollide collideOrigin collideAngles ptr_).

Definition IsBoxIntersectingCone (boxAbsMins boxAbsMaxs cone : ptr) : M this bool :=
  Msg "Debug: Entering %s\n" "IsBoxIntersectingCone" ;;
  forward (IJoltPhysicsCollision.IsBoxIntersectingCone boxAbsMins boxAbsMaxs cone).

Definition VCollideLoad (pOutput : ptr) (solidCount : Z) (pBuffer : ptr) (size : Z) (swap : bool) : M this unit :=
  Msg "Debug: Entering %s\n" "VCollideLoad" ;;
  forward (IJoltPhysicsCollision.VCollideLoad pOutput solidCount pBuffer size swap).

Definition VCollideUnload (pVCollide : ptr) : M this unit :=
  Msg "Debug: Entering %s\n" "VCollideUnload" ;;
  forward (IJoltPhysicsCollision.VCollideUnload pVCollide).

Definition VPhysicsKeyParserCreate (pKeyData : ptr) : M this ptr :=
  Msg "Debug: Entering %s\n" "VPhysicsKeyParserCreate" ;;
  forward (IJoltPhysicsCollision.VPhysicsKeyParserCreate pKeyData).

Definition VPhysicsKeyParserCreate_vcollide (pVCollide : ptr) : M this ptr :=
  Msg "Debug: Entering %s\n" "VPhysicsKeyParserCreate" ;;
  forward (IJoltPhysicsCollision.VPhysicsKeyParserCreate_vcollide pVCollide).

Definition VPhysicsKeyParserDestroy (pParser : ptr) : M this unit :=
  Msg "Debug: Entering %s\n" "VPhysicsKeyParserDestroy" ;;
  forward (IJoltPhysicsCollision.VPhysicsKeyParserDestroy pParser).

Definition CreateDebugMesh (pCollisionModel outVerts : ptr) : M this Z :=
  Msg "Debug: Entering %s\n" "CreateDebugMesh" ;;
  forward (IJoltPhysicsCollision.CreateDebugMesh pCollisionModel outVerts).

Definition DestroyDebugMesh (vertCount : Z) (outVerts : ptr) : M this unit :=
  Msg "Debug: Entering %s\n" "DestroyDebugMesh" ;;
  forward (IJoltPhysicsCollision.DestroyDebugMesh vertCount outVerts).

Definition CreateQueryModel (pCollide : ptr) : M this ptr :=
  Msg "Debug: Entering %s\n" "CreateQueryModel" ;;
  forward (IJoltPhysicsCollision.CreateQueryModel pCollide).

Definition DestroyQueryModel (pQuery : ptr) : M this unit :=
  Msg "Debug: Entering %s\n" "DestroyQueryModel" ;;
  forward (IJoltPhysicsCollision.DestroyQueryModel pQuery).

Definition ThreadContextCreate : M this ptr :=
  Msg "Debug: Entering %s\n" "ThreadContextCreate" ;;
  forward IJoltPhysicsCollision.ThreadContextCreate.

Definition ThreadContextDestroy (pThreadContex : ptr) : M this unit :=
  Msg "Debug: Entering %s\n" "ThreadContextDestroy" ;;
  forward (IJoltPhysicsCollision.ThreadContextDestroy pThreadContex).

Definition CreateVirtualMesh (params : ptr) : M this ptr :=
  Msg "Debug: Entering %s\n" "CreateVirtualMesh" ;;
  forward (IJoltPhysicsCollision.CreateVirtualMesh params).

Definition SupportsVirtualMesh : M this bool :=
  Msg "Debug: Entering %s\n" "SupportsVirtualMesh" ;;
  forward IJoltPhysicsCollision.SupportsVirtualMesh.

Definition GetBBoxCacheSize (pCachedSize pCachedCount : ptr) : M this bool :=
  Msg "Debug: Entering %s\n" "GetBBoxCacheSize" ;;
  forward (IJoltPhysicsCollision.GetBBoxCacheSize pCachedSize pCachedCount).

Definition PolyhedronFromConvex (pConvex : ptr) (bUseTempPolyhedron : bool) : M this ptr :=
  Msg "Debug: Entering %s\n" "PolyhedronFromConvex" ;;
  forward (IJoltPhysicsCollision.PolyhedronFromConvex pConvex bUseTempPolyhedron).

Definition OutputDebugInfo (pCollide : ptr) : M this unit :=
  Msg "Debug: Entering %s\n" "OutputDebugInfo" ;;
  forward (IJoltPhysicsCollision.OutputDebugInfo pCollide).

Definition ReadStat (statID : Z) : M this Z :=
  Msg "Debug: Entering %s\n" "ReadStat" ;;
  forward (IJoltPhysicsCollision.ReadStat statID).

Definition CollideGetRadius (pCollide : ptr) : M this float :=
  Msg "Debug: Entering %s\n" "CollideGetRadius" ;;
  forward (IJoltPhysicsCollision.CollideGetRadius pCollide).

Definition VCollideAllocUserData (pVCollide : ptr) (userDataSize : Z) : M this ptr :=
  Msg "Debug: Entering %s\n" "VCollideAllocUserData" ;;
  forward (IJoltPhysicsCollision.VCollideAllocUserData pVCollide userDataSize).

Definition VCollideFreeUserData (pVCollide : ptr) : M this unit :=
  Msg "Debug: Entering %s\n" "VCollideFreeUserData" ;;
  forward (IJoltPhysicsCollision.VCollideFreeUserData pVCollide).

Definition VCollideCheck (pVCollide pName : ptr) : M this unit :=
  Msg "Debug: Entering %s\n" "VCollideCheck" ;;
  forward (IJoltPhysicsCollision.VCollideCheck pVCollide pName).

Definition TraceBoxAA (ray pCollide ptr_ : ptr) : M this bool :=
  Msg "Debug: Entering %s\n" "TraceBoxAA" ;;
  forward (IJoltPhysicsCollision.TraceBoxAA ray pCollide ptr_).

Definition DuplicateAndScale (pOut pIn : ptr) (flScale : float) : M this unit :=
  Msg "Debug: Entering %s\n" "DuplicateAndScale" ;;
  forward (IJoltPhysicsCollision.DuplicateAndScale pOut pIn flScale).

(** The facade seen through its interface. *)
Definition invoke (t : ctype) (m : IJoltPhysicsCollision.method t) : M this (val t) :=
  match m in IJoltPhysicsCollision.method t0 return M this (val t0) with
  | IJoltPhysicsCollision.ConvexFromVerts pVerts vertCount => ConvexFromVerts pVerts vertCount
  | IJoltPhysicsCollision.ConvexFromPlanes pPlanes planeCount mergeDistance => ConvexFromPlanes pPlanes planeCount mergeDistance
  | IJoltPhysicsCollision.ConvexVolume pConvex => ConvexVolume pConvex
  | IJoltPhysicsCollision.ConvexSurfaceArea pConvex => ConvexSurfaceArea pConvex
  | IJoltPhysicsCollision.SetConvexGameData pConvex gameData => SetConvexGameData pConvex gameData
  | IJoltPhysicsCollision.ConvexFree pConvex => ConvexFree pConvex
  | IJoltPhysicsCollision.BBoxToConvex mins maxs => BBoxToConvex mins maxs
  | IJoltPhysicsCollision.ConvexFromConvexPolyhedron ConvexPolyhedron => ConvexFromConvexPolyhedron ConvexPolyhedron
  | IJoltPhysicsCollision.ConvexesFromConvexPolygon vPolyNormal pPoints iPointCount pOutput => ConvexesFromConvexPolygon vPolyNormal pPoints iPointCount pOutput
  | IJoltPhysicsCollision.PolysoupCreate => PolysoupCreate
  | IJoltPhysicsCollision.PolysoupDestroy pSoup => PolysoupDestroy pSoup
  | IJoltPhysicsCollision.PolysoupAddTriangle pSoup a b c materialIndex7bits => PolysoupAddTriangle pSoup a b c materialIndex7bits
  | IJoltPhysicsCollision.ConvertPolysoupToCollide pSoup useMOPP => ConvertPolysoupToCollide pSoup useMOPP
  | IJoltPhysicsCollision.ConvertConvexToCollide pConvex convexCount => ConvertConvexToCollide pConvex convexCount
  | IJoltPhysicsCollision.ConvertConvexToCollideParams pConvex convexCount convertParams => ConvertConvexToCollideParams pConvex convexCount convertParams
  | IJoltPhysicsCollision.DestroyCollide pCollide => DestroyCollide pCollide
  | IJoltPhysicsCollision.CollideSize pCollide => CollideSize pCollide
  | IJoltPhysicsCollision.CollideWrite pDest pCollide bSwap => CollideWrite pDest pCollide bSwap
  | IJoltPhysicsCollision.UnserializeCollide pBuffer size index => UnserializeCollide pBuffer size index
  | IJoltPhysicsCollision.CollideVolume pCollide => CollideVolume pCollide
  | IJoltPhysicsCollision.CollideSurfaceArea pCollide => CollideSurfaceArea pCollide
  | IJoltPhysicsCollision.CollideGetExtent pCollide collideOrigin collideAngles direction => CollideGetExtent pCollide collideOrigin collideAngles direction
  | IJoltPhysicsCollision.CollideGetAABB pMins pMaxs pCollide collideOrigin collideAngles => CollideGetAABB pMins pMaxs pCollide collideOrigin collideAngles
  | IJoltPhysicsCollision.CollideGetMassCenter pCollide pOutMassCenter => CollideGetMassCenter pCollide pOutMassCenter
  | IJoltPhysicsCollision.CollideSetMassCenter pCollide massCenter => CollideSetMassCenter pCollide massCenter
  | IJoltPhysicsCollision.CollideGetOrthographicAreas pCollide => CollideGetOrthographicAreas pCollide
  | IJoltPhysicsCollision.CollideSetOrthographicAreas pCollide areas => CollideSetOrthographicAreas pCollide areas
  | IJoltPhysicsCollision.CollideIndex pCollide => CollideIndex pCollide
  | IJoltPhysicsCollision.BBoxToCollide mins maxs => BBoxToCollide mins maxs
  | IJoltPhysicsCollision.GetConvexesUsedInCollideable pCollideable pOutputArray iOutputArrayLimit => GetConvexesUsedInCollideable pCollideable pOutputArray iOutputArrayLimit
  | IJoltPhysicsCollision.TraceBox start end_ mins maxs pCollide collideOrigin collideAngles ptr_ => TraceBox start end_ mins maxs pCollide collideOrigin collideAngles ptr_
  | IJoltPhysicsCollision.TraceBox_ray ray pCollide collideOrigin collideAngles ptr_ => TraceBox_ray ray pCollide collideOrigin collideAngles ptr_
  | IJoltPhysicsCollision.TraceBox_mask ray contentsMask pConvexInfo pCollide collideOrigin collideAngles ptr_ => TraceBox_mask ray contentsMask pConvexInfo pCollide collideOrigin collideAngles ptr_
  | IJoltPhysicsCollision.TraceCollide start end_ pSweepCollide sweepAngles pCollide collideOrigin collideAngles ptr_ => TraceCollide start end_ pSweepCollide sweepAngles pCollide collideOrigin collideAngles ptr_
  | IJoltPhysicsCollision.IsBoxIntersectingCone boxAbsMins boxAbsMaxs cone => IsBoxIntersectingCone boxAbsMins boxAbsMaxs cone
  | IJoltPhysicsCollision.VCollideLoad pOutput solidCount pBuffer size swap => VCollideLoad pOutput solidCount pBuffer size swap
  | IJoltPhysicsCollision.VCollideUnload pVCollide => VCollideUnload pVCollide
  | IJoltPhysicsCollision.VPhysicsKeyParserCreate pKeyData => VPhysicsKeyParserCreate pKeyData
  | IJoltPhysicsCollision.VPhysicsKeyParserCreate_vcollide pVCollide => VPhysicsKeyParserCreate_vcollide pVCollide
  | IJoltPhysicsCollision.VPhysicsKeyParserDestroy pParser => VPhysicsKeyParserDestroy pParser
  | IJoltPhysicsCollision.CreateDebugMesh pCollisionModel outVerts => CreateDebugMesh pCollisionModel outVerts
  | IJoltPhysicsCollision.DestroyDebugMesh vertCount outVerts => DestroyDebugMesh vertCount outVerts
  | IJoltPhysicsCollision.CreateQueryModel pCollide => CreateQueryModel pCollide
  | IJoltPhysicsCollision.DestroyQueryModel pQuery => DestroyQueryModel pQuery
  | IJoltPhysicsCollision.ThreadContextCreate => ThreadContextCreate
  | IJoltPhysicsCollision.ThreadContextDestroy pThreadContex => ThreadContextDestroy pThreadContex
  | IJoltPhysicsCollision.CreateVirtualMesh params => CreateVirtualMesh params
  | IJoltPhysicsCollision.SupportsVirtualMesh => SupportsVirtualMesh
  | IJoltPhysicsCollision.GetBBoxCacheSize pCachedSize pCachedCount => GetBBoxCacheSize pCachedSize pCachedCount
  | IJoltPhysicsCollision.PolyhedronFromConvex pConvex bUseTempPolyhedron => PolyhedronFromConvex pConvex bUseTempPolyhedron
  | IJoltPhysicsCollision.OutputDebugInfo pCollide => OutputDebugInfo pCollide
  | IJoltPhysicsCollision.ReadStat statID => ReadStat statID
  | IJoltPhysicsCollision.CollideGetRadius pCollide => CollideGetRadius pCollide
  | IJoltPhysicsCollision.VCollideAllocUserData pVCollide userDataSize => VCollideAllocUserData pVCollide userDataSize
  | IJoltPhysicsCollision.VCollideFreeUserData pVCollide => VCollideFreeUserData pVCollide
  | IJoltPhysicsCollision.VCollideCheck pVCollide pName => VCollideCheck pVCollide pName
  | IJoltPhysicsCollision.TraceBoxAA ray pCollide ptr_ => TraceBoxAA ray pCollide ptr_
  | IJoltPhysicsCollision.DuplicateAndScale pOut pIn flScale => DuplicateAndScale pOut pIn flScale
  end.
End Methods.
End PhysicsCollisionWrapper.


(* ================================================================== *)
(** ** Drivers and concrete collaborators

    Small harnesses that run the shim: a sequence of resolve attempts, and
    stub hosts (a CPUID table, a loader, a delegate) on which the facades
    can be evaluated. *)

(** [n] consecutive calls of [InitWrapper], collecting what each returned. *)
Fixpoint InitWrapper_times (E : Env) (n : nat) : M PhysicsWrapper.this (list bool) :=
  match n with
  | O => ret []
  | S k =>
      ok <- PhysicsWrapper.InitWrapper E ;;
      rest <- InitWrapper_times E k ;;
      ret (ok :: rest)
  end.

Definition default_val (t : ctype) : val t :=
  match t with
  | c_void => tt
  | c_bool => false
  | c_int => 0
  | c_float => Float 0
  | c_ptr => nullptr
  | c_Vector => {| x := Float 0; y := Float 0; z := Float 0 |}
  end.

(** A delegate whose answers to a few methods show the arguments it saw. *)
Definition probe_delegate (t : ctype) (tr : Trace) (self : ptr) (c : Call t) : val t :=
  match c in Call t0 return val t0 with
  | OnPhysics m =>
      match m in IPhysics.method t1 return val t1 with
      | IPhysics.Connect _ => true
      | IPhysics.QueryInterface pInterfaceName => self + pInterfaceName
      | IPhysics.FindCollisionSet id => 4096 + id
      | _ => default_val _
      end
  | OnSurfaceProps m =>
      match m in IJoltPhysicsSurfaceProps.method t1 return val t1 with
      | IJoltPhysicsSurfaceProps.GetSurfaceIndex pSurfacePropName => pSurfacePropName + 7
      | _ => default_val _
      end
  | OnCollision m =>
      match m in IJoltPhysicsCollision.method t1 return val t1 with
      | IJoltPhysicsCollision.CollideVolume pCollide => Float (pCollide + 1)
      | _ => default_val _
      end
  end.

(** Loaders: one that never finds the module, one that always loads it, and
    one that fails until a load has been attempted before. *)
Definition loader_fails (t : Trace) (name version : string) : option (ptr * ptr) :=
  None.
Definition loader_loads (t : Trace) (name version : string) : option (ptr * ptr) :=
  Some (4096, 8192).
Definition loader_second_try (t : Trace) (name version : string) : option (ptr * ptr) :=
  if (loads t =? 0)%nat then None else Some (4096, 8192).

Definition host (loader : Trace -> string -> string -> option (ptr * ptr)) : Env :=
  {| GetCPUID := ivy_bridge_cpuid;
     DLL_EXT_STRING := ".dll";
     VPHYSICS_INTERFACE_VERSION := "VPhysics031";
     VPHYSICS_SURFACEPROPS_INTERFACE_VERSION := "VPhysicsSurfaceProps001";
     VPHYSICS_COLLISION_INTERFACE_VERSION := "VPhysicsCollision007";
     load_result := loader;
     respond := probe_delegate |}.

(** A resolved environment facade. *)
Definition active_facade : PhysicsWrapper.this :=
  {| PhysicsWrapper.m_pActualPhysicsModule := 4096;
     PhysicsWrapper.m_pActualPhysicsInterface := 8192 |}.

(** Resolved eager facades. *)
Definition active_surfaceprops : PhysicsSurfacePropsWrapper.this :=
  {| PhysicsSurfacePropsWrapper.m_pActualPhysicsSurfacePropsModule := 4096;
     PhysicsSurfacePropsWrapper.m_pActualPhysicsSurfacePropsInterface := 8192 |}.
Definition active_collision : PhysicsCollisionWrapper.this :=
  {| PhysicsCollisionWrapper.m_pActualPhysicsCollisionModule := 4096;
     PhysicsCollisionWrapper.m_pActualPhysicsCollisionInterface := 8192 |}.

(* ================================================================== *)
(** ** Sequences of calls and whole lifetimes *)

(** The calls of [ms], made one after the other on a facade through its
    interface; what each returns is dropped. *)
Section InvokeEach.
Variables (S : Type) (method : ctype -> Type).
Variable invoke : forall t : ctype, method t -> M S (val t).

Fixpoint invoke_each (ms : list {t : ctype & method t}) : M S unit :=
  match ms with
  | [] => ret tt
  | existT _ t m :: rest => (@invoke t m ;; invoke_each rest)
  end.
End InvokeEach.
Arguments invoke_each {S method} invoke ms.

(** The calls a trace delivered to delegates, and its unloads, most recent
    first like the trace itself. *)
Definition delegate_calls (tr : Trace) : Trace := filter is_call tr.
Definition unload_events (tr : Trace) : Trace := filter is_unload tr.

(** The calls of [ms] as the delegate [d] sees them, first call first. *)
Definition calls_on (method : ctype -> Type) (inj : forall t : ctype, method t -> Call t)
    (d : ptr) (ms : list {t : ctype & method t}) : Trace :=
  map (fun a => EvCall d (@inj (projT1 a) (projT2 a))) ms.
Arguments calls_on {method} inj d ms.

Definition is_disconnect (t : ctype) (m : IPhysics.method t) : bool :=
  match m with
  | IPhysics.Disconnect => true
  | _ => false
  end.

(** What a call on the environment facade unloads: [Disconnect] unloads
    the module handle [pModule], nothing else unloads anything. *)
Definition Disconnect_unloads (pModule : ptr) (a : {t : ctype & IPhysics.method t}) : Trace :=
  if is_disconnect (projT2 a) then [EvUnload pModule] else [].

(** An eager facade from static initialisation to destruction, with the
    calls [ms] made on it in between. *)
Definition PhysicsSurfacePropsWrapper_lifetime (E : Env)
    (ms : list {t : ctype & IJoltPhysicsSurfaceProps.method t})
    : M PhysicsSurfacePropsWrapper.this unit :=
  PhysicsSurfacePropsWrapper.constructor E ;;
  invoke_each (@PhysicsSurfacePropsWrapper.invoke E) ms ;;
  PhysicsSurfacePropsWrapper.destructor.

Definition PhysicsCollisionWrapper_lifetime (E : Env)
    (ms : list {t : ctype & IJoltPhysicsCollision.method t})
    : M PhysicsCollisionWrapper.this unit :=
  PhysicsCollisionWrapper.constructor E ;;
  invoke_each (@PhysicsCollisionWrapper.invoke E) ms ;;
  PhysicsCollisionWrapper.destructor.

(** A session of the environment facade as a host drives it: [Connect],
    the calls [ms], then [Disconnect]. *)
Definition PhysicsWrapper_session (E : Env) (factory : ptr)
    (ms : list {t : ctype & IPhysics.method t}) : M PhysicsWrapper.this unit :=
  PhysicsWrapper.Connect E factory ;;
  invoke_each (@PhysicsWrapper.invoke E) ms ;;
  PhysicsWrapper.Disconnect E.

(** The fields of an environment facade are a pair the loader gave. *)
Definition loader_gave (E : Env) (self : PhysicsWrapper.this) : Prop :=
  exists tr : Trace,
    Sys_LoadInterface_result E (selected_module E) (VPHYSICS_INTERFACE_VERSION E) tr =
      Some (PhysicsWrapper.m_pActualPhysicsModule self,
            PhysicsWrapper.m_pActualPhysicsInterface self).

(** A host whose delegate answers every call with the zero of its type; in
    particular it answers [Connect] with false. *)
Definition refusing_host (loader : Trace -> string -> string -> option (ptr * ptr)) : Env :=
  {| GetCPUID := ivy_bridge_cpuid;
     DLL_EXT_STRING := ".dll";
     VPHYSICS_INTERFACE_VERSION := "VPhysics031";
     VPHYSICS_SURFACEPROPS_INTERFACE_VERSION := "VPhysicsSurfaceProps001";
     VPHYSICS_COLLISION_INTERFACE_VERSION := "VPhysicsCollision007";
     load_result := loader;
     respond := fun t _ _ _ => default_val t |}.

(* ================================================================== *)
(** ** Vocabulary of the properties *)

(** [run] forwards the call [c] to the delegate [d] verbatim: it returns
    normally and leaves the facade as it was; the delegate receives exactly
    [c]; the value returned is the delegate's own answer; and the only other
    things done are diagnostics printed before the call and module unloads
    after it. *)
Definition forwards_verbatim (E : Env) {S : Type} {t : ctype} (d : ptr) (c : Call t)
    (run : M S (val t)) (self : S) (tr : Trace) : Prop :=
  exists pre post : Trace,
    forallb is_msg pre = true /\ forallb is_unload post = true /\
    run self tr =
      Returns (respond E (pre ++ tr) d c) self (post ++ EvCall d c :: pre ++ tr).

(** [run] dereferences a null delegate, after printing at most diagnostics. *)
Definition dereferences_null {S A : Type} (run : M S A) (self : S) (tr : Trace) : Prop :=
  exists pre : Trace,
    forallb is_msg pre = true /\ run self tr = NullDeref (pre ++ tr).

(** The two overrides of the environment facade that call [InitWrapper]
    before they forward. *)
Definition resolves_first (t : ctype) (m : IPhysics.method t) : bool :=
  match m with
  | IPhysics.Connect _ | IPhysics.QueryInterface _ => true
  | _ => false
  end.

(* ================================================================== *)
(** ** Proof steps shared by the per-method case analyses

    Each closes one method's case of [forwards_verbatim] or
    [dereferences_null] by running the override: [Hd] says that the
    delegate pointer is not null. *)

Ltac run_override := cbv -[Z.eqb respond].

Ltac forwards_plain Hd :=
  exists (@nil Event), (@nil Event);
  split; [reflexivity | split; [reflexivity | run_override; rewrite Hd; reflexivity]].

Ltac forwards_after_msg Hd :=
  eexists (cons (EvMsg _ _) nil), (@nil Event);
  split; [reflexivity | split; [reflexivity | run_override; rewrite Hd; reflexivity]].

(** [Disconnect] discards the delegate's [void] and returns its own. *)
Ltac forwards_then_unload Hd :=
  eexists (@nil Event), (cons (EvUnload _) nil);
  split; [reflexivity | split; [reflexivity | ]];
  run_override; rewrite Hd;
  match goal with
  | |- context [respond ?E ?tr ?d ?c] => destruct (respond E tr d c)
  end; reflexivity.

Ltac null_plain :=
  exists (@nil Event); split; [reflexivity | run_override; reflexivity].

Ltac null_after_msg :=
  eexists (cons (EvMsg _ _) nil); split; [reflexivity | run_override; reflexivity].

(* ================================================================== *)
(** * Properties *)

Unset Implicit Arguments.

(** ** Capability detection and module selection *)

Lemma bool_of_int_mask (v : Z) (n : Z) :
  0 <= n -> bool_of_int (Z.land v (Z.shiftl 1 n)) = Z.testbit v n.
Proof.
  intros Hn. unfold bool_of_int.
  rewrite Z.shiftl_1_l.
  destruct (Z.testbit v n) eqn:Hb.
  - apply negb_true_iff, Z.eqb_neq. intros H0.
    assert (Z.testbit (Z.land v (2 ^ n)) n = false) as Hbit
      by (rewrite H0; apply Z.bits_0).
    rewrite Z.land_spec, Hb, Z.pow2_bits_true in Hbit by assumption.
    discriminate.
  - apply negb_false_iff, Z.eqb_eq. apply Z.bits_inj'. intros m Hm.
    rewrite Z.land_spec, Z.bits_0, Z.pow2_bits_eqb by assumption.
    destruct (Z.eqb_spec n m) as [->|_].
    + rewrite Hb. reflexivity.
    + apply andb_false_r.
Qed.

(** What the detector computes, in terms of the three hardware facts: the
    SSE4.2 bit is consulted only when leaf 7 does not exist. *)
Lemma GetCPULevel_cases (cpuid : Z -> Z -> cpuInfo_t) :
  CPU.GetCPULevel cpuid =
    if CPU.has_leaf7 cpuid
    then (if CPU.avx2_bit cpuid then CPU_HAS_AVX2 else CPU_HAS_SSE2)
    else (if CPU.sse42_bit cpuid then CPU_HAS_SSE42 else CPU_HAS_SSE2).
Proof.
  unfold CPU.GetCPULevel, CPU.has_leaf7, CPU.avx2_bit, CPU.sse42_bit.
  rewrite !bool_of_int_mask by lia. reflexivity.
Qed.

(** The detector and the ladder disagree exactly on processors that have
    leaf 7, lack AVX2 and have SSE4.2. *)
Lemma GetCPULevel_ladder_iff (cpuid : Z -> Z -> cpuInfo_t) :
  CPU.GetCPULevel cpuid = CPU.DetectTier_ladder cpuid <->
  CPU.has_leaf7 cpuid && negb (CPU.avx2_bit cpuid) && CPU.sse42_bit cpuid = false.
Proof.
  rewrite GetCPULevel_cases. unfold CPU.DetectTier_ladder.
  destruct (CPU.has_leaf7 cpuid), (CPU.avx2_bit cpuid), (CPU.sse42_bit cpuid);
    simpl; split; intro H; try reflexivity; discriminate H.
Qed.

(** C1 (evaluation at the failing input): on an Ivy Bridge class processor
    (leaf 7 present, AVX2 clear, SSE4.2 set) [GetCPULevel] answers
    [CPU_HAS_SSE2], where the fallback ladder answers [CPU_HAS_SSE42]. *)
Theorem GetCPULevel_leaf7_without_avx2 :
  CPU.has_leaf7 ivy_bridge_cpuid = true /\
  CPU.avx2_bit ivy_bridge_cpuid = false /\
  CPU.sse42_bit ivy_bridge_cpuid = true /\
  CPU.GetCPULevel ivy_bridge_cpuid = CPU_HAS_SSE2 /\
  CPU.DetectTier_ladder ivy_bridge_cpuid = CPU_HAS_SSE42.
Proof. repeat split; reflexivity. Qed.

(** The three branches of the detector on small tables: AVX2 present; no
    leaf 7 but SSE4.2; neither. *)
Example GetCPULevel_avx2 :
  CPU.GetCPULevel (cpuid_of 13 (Z.shiftl 1 5) (Z.shiftl 1 20)) = CPU_HAS_AVX2.
Proof. reflexivity. Qed.

Example GetCPULevel_sse42 :
  CPU.GetCPULevel (cpuid_of 4 0 (Z.shiftl 1 20)) = CPU_HAS_SSE42.
Proof. reflexivity. Qed.

Example GetCPULevel_sse2 :
  CPU.GetCPULevel (cpuid_of 4 0 0) = CPU_HAS_SSE2.
Proof. reflexivity. Qed.

(** C7: the tier-to-module-name table is total, sends each tier to its own
    fixed name (the tier's suffix followed by the platform extension), and
    no two tiers share a name: no tier is served by a lower tier's module. *)
Theorem GetModuleFromCPULevel_table (ext : string) :
  GetModuleFromCPULevel ext CPU_HAS_AVX2 = ("vphysics_jolt_avx2" ++ ext)%string /\
  GetModuleFromCPULevel ext CPU_HAS_SSE42 = ("vphysics_jolt_sse42" ++ ext)%string /\
  GetModuleFromCPULevel ext CPU_HAS_SSE2 = ("vphysics_jolt_sse2" ++ ext)%string /\
  (forall l1 l2 : CPULevel_t,
      GetModuleFromCPULevel ext l1 = GetModuleFromCPULevel ext l2 -> l1 = l2).
Proof.
  repeat split.
  intros [] []; simpl; intros H; first [reflexivity | discriminate H | idtac];
    exfalso; repeat (injection H as _ H); discriminate H.
Qed.

(** ** The monad and the collaborators *)

Lemma vcall_nonnull (E : Env) (S : Type) (t : ctype) (d : ptr) (c : Call t)
    (self : S) (tr : Trace) :
  d <> nullptr ->
  vcall E d c self tr = Returns (respond E tr d c) self (EvCall d c :: tr).
Proof.
  intros Hd. unfold vcall. destruct (Z.eqb_spec d nullptr); [contradiction | reflexivity].
Qed.

Lemma Sys_LoadInterface_result_nonnull (E : Env) (name version : string) (tr : Trace)
    (pModule pInterface : ptr) :
  Sys_LoadInterface_result E name version tr = Some (pModule, pInterface) ->
  pInterface <> nullptr.
Proof.
  unfold Sys_LoadInterface_result.
  destruct (load_result E tr name version) as [[pm pd]|]; [|discriminate].
  destruct (Z.eqb_spec pd nullptr); [discriminate|].
  intros H; injection H as _ <-. assumption.
Qed.

(** ** The environment facade *)

Section EnvironmentFacade.
Variable E : Env.

Abbreviation iface := PhysicsWrapper.m_pActualPhysicsInterface.
Abbreviation version := (VPHYSICS_INTERFACE_VERSION E).
Abbreviation load_event := (EvLoad (selected_module E) (VPHYSICS_INTERFACE_VERSION E)).
Abbreviation load_at tr :=
  (Sys_LoadInterface_result E (selected_module E) (VPHYSICS_INTERFACE_VERSION E) tr).

Lemma InitWrapper_resolved self tr :
  iface self <> nullptr ->
  PhysicsWrapper.InitWrapper E self tr = Returns true self tr.
Proof.
  intros H. unfold PhysicsWrapper.InitWrapper, bind, gets.
  destruct (Z.eqb_spec (iface self) nullptr); [contradiction | reflexivity].
Qed.

Lemma InitWrapper_load_fails self tr :
  iface self = nullptr ->
  load_at tr = None ->
  PhysicsWrapper.InitWrapper E self tr = Returns false self (load_event :: tr).
Proof.
  intros H Hl. unfold PhysicsWrapper.InitWrapper, bind, gets, Sys_LoadInterface.
  rewrite H. simpl. fold (selected_module E). rewrite Hl. reflexivity.
Qed.

Lemma InitWrapper_load_succeeds self tr pModule pInterface :
  iface self = nullptr ->
  load_at tr = Some (pModule, pInterface) ->
  PhysicsWrapper.InitWrapper E self tr =
    Returns true
      {| PhysicsWrapper.m_pActualPhysicsModule := pModule;
         PhysicsWrapper.m_pActualPhysicsInterface := pInterface |}
      (load_event :: tr).
Proof.
  intros H Hl. unfold PhysicsWrapper.InitWrapper, bind, gets, Sys_LoadInterface.
  rewrite H. simpl. fold (selected_module E). rewrite Hl. reflexivity.
Qed.

Lemma forward_resolved t (m : IPhysics.method t) self tr :
  iface self <> nullptr ->
  PhysicsWrapper.forward E m self tr =
    Returns (respond E tr (iface self) (OnPhysics m)) self
            (EvCall (iface self) (OnPhysics m) :: tr).
Proof.
  intros H. unfold PhysicsWrapper.forward, bind, gets. apply vcall_nonnull, H.
Qed.

Lemma Connect_resolved factory self tr :
  iface self <> nullptr ->
  PhysicsWrapper.Connect E factory self tr =
    Returns (respond E tr (iface self) (OnPhysics (IPhysics.Connect factory))) self
            (EvCall (iface self) (OnPhysics (IPhysics.Connect factory)) :: tr).
Proof.
  intros H. unfold PhysicsWrapper.Connect, bind.
  rewrite InitWrapper_resolved by assumption. simpl.
  exact (forward_resolved _ (IPhysics.Connect factory) self tr H).
Qed.

Lemma QueryInterface_resolved name self tr :
  iface self <> nullptr ->
  PhysicsWrapper.QueryInterface E name self tr =
    Returns (respond E tr (iface self) (OnPhysics (IPhysics.QueryInterface name))) self
            (EvCall (iface self) (OnPhysics (IPhysics.QueryInterface name)) :: tr).
Proof.
  intros H. unfold PhysicsWrapper.QueryInterface, bind.
  rewrite InitWrapper_resolved by assumption. simpl.
  exact (forward_resolved _ (IPhysics.QueryInterface name) self tr H).
Qed.

Lemma Connect_load_fails factory self tr :
  iface self = nullptr ->
  load_at tr = None ->
  PhysicsWrapper.Connect E factory self tr = Returns false self (load_event :: tr).
Proof.
  intros H Hl. unfold PhysicsWrapper.Connect, bind.
  rewrite InitWrapper_load_fails by assumption. reflexivity.
Qed.

Lemma QueryInterface_load_fails name self tr :
  iface self = nullptr ->
  load_at tr = None ->
  PhysicsWrapper.QueryInterface E name self tr = Returns nullptr self (load_event :: tr).
Proof.
  intros H Hl. unfold PhysicsWrapper.QueryInterface, bind.
  rewrite InitWrapper_load_fails by assumption. reflexivity.
Qed.

Lemma Connect_load_succeeds factory self tr pModule pInterface :
  iface self = nullptr ->
  load_at tr = Some (pModule, pInterface) ->
  PhysicsWrapper.Connect E factory self tr =
    Returns (respond E (load_event :: tr) pInterface (OnPhysics (IPhysics.Connect factory)))
      {| PhysicsWrapper.m_pActualPhysicsModule := pModule;
         PhysicsWrapper.m_pActualPhysicsInterface := pInterface |}
      (EvCall pInterface (OnPhysics (IPhysics.Connect factory)) :: load_event :: tr).
Proof.
  intros H Hl. unfold PhysicsWrapper.Connect, bind.
  rewrite (InitWrapper_load_succeeds self tr pModule pInterface H Hl). simpl.
  rewrite forward_resolved; [reflexivity|].
  simpl. eapply Sys_LoadInterface_result_nonnull, Hl.
Qed.

Lemma QueryInterface_load_succeeds name self tr pModule pInterface :
  iface self = nullptr ->
  load_at tr = Some (pModule, pInterface) ->
  PhysicsWrapper.QueryInterface E name self tr =
    Returns (respond E (load_event :: tr) pInterface (OnPhysics (IPhysics.QueryInterface name)))
      {| PhysicsWrapper.m_pActualPhysicsModule := pModule;
         PhysicsWrapper.m_pActualPhysicsInterface := pInterface |}
      (EvCall pInterface (OnPhysics (IPhysics.QueryInterface name)) :: load_event :: tr).
Proof.
  intros H Hl. unfold PhysicsWrapper.QueryInterface, bind.
  rewrite (InitWrapper_load_succeeds self tr pModule pInterface H Hl). simpl.
  rewrite forward_resolved; [reflexivity|].
  simpl. eapply Sys_LoadInterface_result_nonnull, Hl.
Qed.
End EnvironmentFacade.

(** ** Resolution of the environment facade *)

Lemma InitWrapper_times_resolved (E : Env) (n : nat) (self : PhysicsWrapper.this) (tr : Trace) :
  PhysicsWrapper.m_pActualPhysicsInterface self <> nullptr ->
  InitWrapper_times E n self tr = Returns (repeat true n) self tr.
Proof.
  intros H. induction n as [|n IH]; [reflexivity|].
  simpl. unfold bind at 1. rewrite InitWrapper_resolved by assumption.
  unfold bind at 1. rewrite IH. reflexivity.
Qed.

(** C4: resolution is memoized.  When the first [InitWrapper] on an
    unresolved facade succeeds, any number of further attempts all report
    success and leave the facade and the trace exactly as the first attempt
    left them: the delegate is the cached one and the whole sequence
    performed exactly one module load. *)
Theorem InitWrapper_memoized (E : Env) (self : PhysicsWrapper.this) (tr : Trace) (n : nat) :
  PhysicsWrapper.m_pActualPhysicsInterface self = nullptr ->
  returned (PhysicsWrapper.InitWrapper E self tr) = Some true ->
  exists self1 : PhysicsWrapper.this,
    PhysicsWrapper.m_pActualPhysicsInterface self1 <> nullptr /\
    PhysicsWrapper.InitWrapper E self tr =
      Returns true self1 (EvLoad (selected_module E) (VPHYSICS_INTERFACE_VERSION E) :: tr) /\
    InitWrapper_times E (S n) self tr =
      Returns (repeat true (S n)) self1
              (EvLoad (selected_module E) (VPHYSICS_INTERFACE_VERSION E) :: tr) /\
    loads (trace_of (InitWrapper_times E (S n) self tr)) = S (loads tr).
Proof.
  intros Hnull Hok.
  destruct (Sys_LoadInterface_result E (selected_module E) (VPHYSICS_INTERFACE_VERSION E) tr)
    as [[pm pd]|] eqn:Hl.
  - pose proof (Sys_LoadInterface_result_nonnull _ _ _ _ _ _ Hl) as Hpd.
    pose proof (InitWrapper_load_succeeds E self tr pm pd Hnull Hl) as Hinit.
    eexists. split; [|split; [exact Hinit|]].
    + exact Hpd.
    + assert (InitWrapper_times E (S n) self tr =
                Returns (repeat true (S n))
                  {| PhysicsWrapper.m_pActualPhysicsModule := pm;
                     PhysicsWrapper.m_pActualPhysicsInterface := pd |}
                  (EvLoad (selected_module E) (VPHYSICS_INTERFACE_VERSION E) :: tr)) as Hseq.
      { simpl. unfold bind at 1. rewrite Hinit.
        unfold bind at 1. rewrite InitWrapper_times_resolved by exact Hpd. reflexivity. }
      split; [exact Hseq|]. rewrite Hseq. reflexivity.
  - rewrite (InitWrapper_load_fails E self tr Hnull Hl) in Hok. discriminate Hok.
Qed.

Lemma InitWrapper_memoized_witness :
  exists self1 : PhysicsWrapper.this,
    PhysicsWrapper.m_pActualPhysicsInterface self1 <> nullptr /\
    PhysicsWrapper.InitWrapper (host loader_loads) PhysicsWrapper.s_PhysicsInterface [] =
      Returns true self1 [EvLoad "vphysics_jolt_sse2.dll" "VPhysics031"] /\
    InitWrapper_times (host loader_loads) 3 PhysicsWrapper.s_PhysicsInterface [] =
      Returns [true; true; true] self1 [EvLoad "vphysics_jolt_sse2.dll" "VPhysics031"] /\
    loads (trace_of (InitWrapper_times (host loader_loads) 3 PhysicsWrapper.s_PhysicsInterface []))
      = 1%nat.
Proof.
  exact (InitWrapper_memoized (host loader_loads) PhysicsWrapper.s_PhysicsInterface [] 2
           eq_refl eq_refl).
Defined.

(** C5: when [Connect] triggers resolution on an unresolved facade and the
    load fails, [Connect] returns [false], the facade is left as it was, and
    the only thing that happened is the load attempt: no call reached a
    delegate. *)
Theorem Connect_propagates_resolution_failure (E : Env) (factory : ptr)
    (self : PhysicsWrapper.this) (tr : Trace) :
  PhysicsWrapper.m_pActualPhysicsInterface self = nullptr ->
  Sys_LoadInterface_result E (selected_module E) (VPHYSICS_INTERFACE_VERSION E) tr = None ->
  PhysicsWrapper.Connect E factory self tr =
    Returns false self (EvLoad (selected_module E) (VPHYSICS_INTERFACE_VERSION E) :: tr) /\
  calls (trace_of (PhysicsWrapper.Connect E factory self tr)) = calls tr.
Proof.
  intros Hnull Hl. rewrite (Connect_load_fails E factory self tr Hnull Hl).
  split; reflexivity.
Qed.

Lemma Connect_propagates_resolution_failure_witness :
  PhysicsWrapper.Connect (host loader_fails) 77 PhysicsWrapper.s_PhysicsInterface [] =
    Returns false PhysicsWrapper.s_PhysicsInterface [EvLoad "vphysics_jolt_sse2.dll" "VPhysics031"] /\
  calls (trace_of (PhysicsWrapper.Connect (host loader_fails) 77
                     PhysicsWrapper.s_PhysicsInterface [])) = 0%nat.
Proof.
  exact (Connect_propagates_resolution_failure (host loader_fails) 77
           PhysicsWrapper.s_PhysicsInterface [] eq_refl eq_refl).
Defined.

(** C6: [QueryInterface] on a facade that was never connected resolves it
    on the spot.  When the module loads, the query is forwarded to the
    freshly loaded delegate and its answer returned, the facade now holding
    the module and the delegate; when the load fails, [QueryInterface]
    returns null at once, without forwarding anything. *)
Theorem QueryInterface_resolves_lazily (E : Env) (pInterfaceName : ptr)
    (self : PhysicsWrapper.this) (tr : Trace) :
  PhysicsWrapper.m_pActualPhysicsInterface self = nullptr ->
  (forall pModule pInterface : ptr,
      Sys_LoadInterface_result E (selected_module E) (VPHYSICS_INTERFACE_VERSION E) tr
        = Some (pModule, pInterface) ->
      PhysicsWrapper.QueryInterface E pInterfaceName self tr =
        Returns
          (respond E (EvLoad (selected_module E) (VPHYSICS_INTERFACE_VERSION E) :: tr)
             pInterface (OnPhysics (IPhysics.QueryInterface pInterfaceName)))
          {| PhysicsWrapper.m_pActualPhysicsModule := pModule;
             PhysicsWrapper.m_pActualPhysicsInterface := pInterface |}
          (EvCall pInterface (OnPhysics (IPhysics.QueryInterface pInterfaceName))
             :: EvLoad (selected_module E) (VPHYSICS_INTERFACE_VERSION E) :: tr)) /\
  (Sys_LoadInterface_result E (selected_module E) (VPHYSICS_INTERFACE_VERSION E) tr = None ->
   PhysicsWrapper.QueryInterface E pInterfaceName self tr =
     Returns nullptr self (EvLoad (selected_module E) (VPHYSICS_INTERFACE_VERSION E) :: tr) /\
   calls (trace_of (PhysicsWrapper.QueryInterface E pInterfaceName self tr)) = calls tr).
Proof.
  intros Hnull. split.
  - intros pm pd Hl. exact (QueryInterface_load_succeeds E pInterfaceName self tr pm pd Hnull Hl).
  - intros Hl. rewrite (QueryInterface_load_fails E pInterfaceName self tr Hnull Hl).
    split; reflexivity.
Qed.

Lemma QueryInterface_resolves_lazily_witness :
  PhysicsWrapper.QueryInterface (host loader_loads) 5 PhysicsWrapper.s_PhysicsInterface [] =
    Returns 8197 active_facade
      [EvCall 8192 (OnPhysics (IPhysics.QueryInterface 5));
       EvLoad "vphysics_jolt_sse2.dll" "VPhysics031"] /\
  PhysicsWrapper.QueryInterface (host loader_fails) 5 PhysicsWrapper.s_PhysicsInterface [] =
    Returns nullptr PhysicsWrapper.s_PhysicsInterface
      [EvLoad "vphysics_jolt_sse2.dll" "VPhysics031"].
Proof.
  split.
  - exact (proj1 (QueryInterface_resolves_lazily (host loader_loads) 5
                    PhysicsWrapper.s_PhysicsInterface [] eq_refl) 4096 8192 eq_refl).
  - exact (proj1 (proj2 (QueryInterface_resolves_lazily (host loader_fails) 5
                    PhysicsWrapper.s_PhysicsInterface [] eq_refl) eq_refl)).
Defined.

(** C10: [Disconnect] on a resolved facade forwards to the delegate and
    unloads the module, but leaves both fields as they were.  The facade
    after [Disconnect] is the same value as before, so [InitWrapper] still
    reports it resolved without loading, and a later [Connect] or
    [QueryInterface] is forwarded to the delegate of the unloaded module. *)
Theorem Disconnect_keeps_delegate (E : Env) (factory pInterfaceName : ptr)
    (self : PhysicsWrapper.this) (tr : Trace) :
  PhysicsWrapper.m_pActualPhysicsInterface self <> nullptr ->
  let d := PhysicsWrapper.m_pActualPhysicsInterface self in
  let tr1 := EvUnload (PhysicsWrapper.m_pActualPhysicsModule self)
               :: EvCall d (OnPhysics IPhysics.Disconnect) :: tr in
  PhysicsWrapper.Disconnect E self tr = Returns tt self tr1 /\
  PhysicsWrapper.InitWrapper E self tr1 = Returns true self tr1 /\
  PhysicsWrapper.Connect E factory self tr1 =
    Returns (respond E tr1 d (OnPhysics (IPhysics.Connect factory))) self
            (EvCall d (OnPhysics (IPhysics.Connect factory)) :: tr1) /\
  PhysicsWrapper.QueryInterface E pInterfaceName self tr1 =
    Returns (respond E tr1 d (OnPhysics (IPhysics.QueryInterface pInterfaceName))) self
            (EvCall d (OnPhysics (IPhysics.QueryInterface pInterfaceName)) :: tr1).
Proof.
  intros H d tr1. repeat match goal with |- _ /\ _ => split end.
  - unfold PhysicsWrapper.Disconnect, bind at 1.
    rewrite (forward_resolved E _ IPhysics.Disconnect self tr H).
    reflexivity.
  - apply InitWrapper_resolved, H.
  - apply Connect_resolved, H.
  - apply QueryInterface_resolved, H.
Qed.

Lemma Disconnect_keeps_delegate_witness :
  PhysicsWrapper.Disconnect (host loader_loads) active_facade [] =
    Returns tt active_facade [EvUnload 4096; EvCall 8192 (OnPhysics IPhysics.Disconnect)] /\
  PhysicsWrapper.InitWrapper (host loader_loads) active_facade
      [EvUnload 4096; EvCall 8192 (OnPhysics IPhysics.Disconnect)] =
    Returns true active_facade [EvUnload 4096; EvCall 8192 (OnPhysics IPhysics.Disconnect)] /\
  PhysicsWrapper.Connect (host loader_loads) 77 active_facade
      [EvUnload 4096; EvCall 8192 (OnPhysics IPhysics.Disconnect)] =
    Returns true active_facade
      [EvCall 8192 (OnPhysics (IPhysics.Connect 77));
       EvUnload 4096; EvCall 8192 (OnPhysics IPhysics.Disconnect)] /\
  PhysicsWrapper.QueryInterface (host loader_loads) 5 active_facade
      [EvUnload 4096; EvCall 8192 (OnPhysics IPhysics.Disconnect)] =
    Returns 8197 active_facade
      [EvCall 8192 (OnPhysics (IPhysics.QueryInterface 5));
       EvUnload 4096; EvCall 8192 (OnPhysics IPhysics.Disconnect)].
Proof.
  assert (PhysicsWrapper.m_pActualPhysicsInterface active_facade <> nullptr) as H
    by (simpl; unfold nullptr; lia).
  exact (Disconnect_keeps_delegate (host loader_loads) 77 5 active_facade [] H).
Defined.

(** ** Forwarding *)

Lemma PhysicsWrapper_forwards (E : Env) (t : ctype) (m : IPhysics.method t)
    (self : PhysicsWrapper.this) (tr : Trace) :
  PhysicsWrapper.m_pActualPhysicsInterface self <> nullptr ->
  forwards_verbatim E (PhysicsWrapper.m_pActualPhysicsInterface self) (OnPhysics m)
    (PhysicsWrapper.invoke E m) self tr.
Proof.
  intros H.
  destruct (resolves_first m) eqn:Hm.
  - destruct m; try discriminate Hm;
      exists [], []; (split; [reflexivity | split; [reflexivity | simpl]]).
    + apply Connect_resolved, H.
    + apply QueryInterface_resolved, H.
  - destruct self as [pm pd]. simpl in H.
    assert ((pd =? 0) = false) as Hd by (apply Z.eqb_neq, H).
    destruct m; try discriminate Hm;
      first [forwards_plain Hd | forwards_then_unload Hd].
Qed.

Lemma PhysicsSurfacePropsWrapper_forwards (E : Env) (t : ctype)
    (m : IJoltPhysicsSurfaceProps.method t)
    (self : PhysicsSurfacePropsWrapper.this) (tr : Trace) :
  PhysicsSurfacePropsWrapper.m_pActualPhysicsSurfacePropsInterface self <> nullptr ->
  forwards_verbatim E (PhysicsSurfacePropsWrapper.m_pActualPhysicsSurfacePropsInterface self)
    (OnSurfaceProps m) (PhysicsSurfacePropsWrapper.invoke E m) self tr.
Proof.
  destruct self as [pm pd]. simpl. intros H.
  assert ((pd =? 0) = false) as Hd by (apply Z.eqb_neq, H).
  destruct m; forwards_after_msg Hd.
Qed.

Lemma PhysicsCollisionWrapper_forwards (E : Env) (t : ctype)
    (m : IJoltPhysicsCollision.method t)
    (self : PhysicsCollisionWrapper.this) (tr : Trace) :
  PhysicsCollisionWrapper.m_pActualPhysicsCollisionInterface self <> nullptr ->
  forwards_verbatim E (PhysicsCollisionWrapper.m_pActualPhysicsCollisionInterface self)
    (OnCollision m) (PhysicsCollisionWrapper.invoke E m) self tr.
Proof.
  destruct self as [pm pd]. simpl. intros H.
  assert ((pd =? 0) = false) as Hd by (apply Z.eqb_neq, H).
  destruct m; first [forwards_after_msg Hd | forwards_plain Hd].
Qed.

(** C3: on a resolved facade every forwarding method hands the delegate the
    method of the same name with the arguments it received, and returns the
    delegate's answer unchanged; this holds for every method of each of the
    three facades. *)
Theorem facades_forward_verbatim (E : Env) :
  (forall (t : ctype) (m : IPhysics.method t) (self : PhysicsWrapper.this) (tr : Trace),
      PhysicsWrapper.m_pActualPhysicsInterface self <> nullptr ->
      forwards_verbatim E (PhysicsWrapper.m_pActualPhysicsInterface self) (OnPhysics m)
        (PhysicsWrapper.invoke E m) self tr) /\
  (forall (t : ctype) (m : IJoltPhysicsSurfaceProps.method t)
          (self : PhysicsSurfacePropsWrapper.this) (tr : Trace),
      PhysicsSurfacePropsWrapper.m_pActualPhysicsSurfacePropsInterface self <> nullptr ->
      forwards_verbatim E (PhysicsSurfacePropsWrapper.m_pActualPhysicsSurfacePropsInterface self)
        (OnSurfaceProps m) (PhysicsSurfacePropsWrapper.invoke E m) self tr) /\
  (forall (t : ctype) (m : IJoltPhysicsCollision.method t)
          (self : PhysicsCollisionWrapper.this) (tr : Trace),
      PhysicsCollisionWrapper.m_pActualPhysicsCollisionInterface self <> nullptr ->
      forwards_verbatim E (PhysicsCollisionWrapper.m_pActualPhysicsCollisionInterface self)
        (OnCollision m) (PhysicsCollisionWrapper.invoke E m) self tr).
Proof.
  split; [|split].
  - apply PhysicsWrapper_forwards.
  - apply PhysicsSurfacePropsWrapper_forwards.
  - apply PhysicsCollisionWrapper_forwards.
Qed.

Lemma facades_forward_verbatim_witness :
  forwards_verbatim (host loader_loads) 8192 (OnPhysics (IPhysics.FindCollisionSet 3))
    (PhysicsWrapper.invoke (host loader_loads) (IPhysics.FindCollisionSet 3))
    active_facade [] /\
  forwards_verbatim (host loader_loads) 8192
    (OnSurfaceProps (IJoltPhysicsSurfaceProps.GetSurfaceIndex 100))
    (PhysicsSurfacePropsWrapper.invoke (host loader_loads)
       (IJoltPhysicsSurfaceProps.GetSurfaceIndex 100))
    active_surfaceprops [] /\
  forwards_verbatim (host loader_loads) 8192
    (OnCollision (IJoltPhysicsCollision.CollideVolume 200))
    (PhysicsCollisionWrapper.invoke (host loader_loads)
       (IJoltPhysicsCollision.CollideVolume 200))
    active_collision [].
Proof.
  assert (8192 <> nullptr) as H by (unfold nullptr; lia).
  pose proof (facades_forward_verbatim (host loader_loads)) as [HP [HS HC]].
  split; [|split].
  - exact (HP _ (IPhysics.FindCollisionSet 3) active_facade [] H).
  - exact (HS _ (IJoltPhysicsSurfaceProps.GetSurfaceIndex 100) active_surfaceprops [] H).
  - exact (HC _ (IJoltPhysicsCollision.CollideVolume 200) active_collision [] H).
Defined.

(** The three representative methods, run against the probing delegate. *)
Example FindCollisionSet_round_trip :
  PhysicsWrapper.FindCollisionSet (host loader_loads) 3 active_facade [] =
    Returns 4099 active_facade [EvCall 8192 (OnPhysics (IPhysics.FindCollisionSet 3))].
Proof. reflexivity. Qed.

Example GetSurfaceIndex_round_trip :
  PhysicsSurfacePropsWrapper.GetSurfaceIndex (host loader_loads) 100 active_surfaceprops [] =
    Returns 107 active_surfaceprops
      [EvCall 8192 (OnSurfaceProps (IJoltPhysicsSurfaceProps.GetSurfaceIndex 100));
       EvMsg "Debug: Entering %s\n" "GetSurfaceIndex"].
Proof. reflexivity. Qed.

Example CollideVolume_round_trip :
  PhysicsCollisionWrapper.CollideVolume (host loader_loads) 200 active_collision [] =
    Returns (Float 201) active_collision
      [EvCall 8192 (OnCollision (IJoltPhysicsCollision.CollideVolume 200));
       EvMsg "Debug: Entering %s\n" "CollideVolume"].
Proof. reflexivity. Qed.

(** ** Calls through a null delegate *)

Lemma PhysicsWrapper_null (E : Env) (t : ctype) (m : IPhysics.method t)
    (self : PhysicsWrapper.this) (tr : Trace) :
  PhysicsWrapper.m_pActualPhysicsInterface self = nullptr ->
  resolves_first m = false ->
  PhysicsWrapper.invoke E m self tr = NullDeref tr.
Proof.
  destruct self as [pm pd]. simpl. intros -> Hm.
  destruct m; try discriminate Hm; reflexivity.
Qed.

Lemma PhysicsSurfacePropsWrapper_null (E : Env) (t : ctype)
    (m : IJoltPhysicsSurfaceProps.method t)
    (self : PhysicsSurfacePropsWrapper.this) (tr : Trace) :
  PhysicsSurfacePropsWrapper.m_pActualPhysicsSurfacePropsInterface self = nullptr ->
  dereferences_null (PhysicsSurfacePropsWrapper.invoke E m) self tr.
Proof.
  destruct self as [pm pd]. simpl. intros ->.
  destruct m; null_after_msg.
Qed.

Lemma PhysicsCollisionWrapper_null (E : Env) (t : ctype)
    (m : IJoltPhysicsCollision.method t)
    (self : PhysicsCollisionWrapper.this) (tr : Trace) :
  PhysicsCollisionWrapper.m_pActualPhysicsCollisionInterface self = nullptr ->
  dereferences_null (PhysicsCollisionWrapper.invoke E m) self tr.
Proof.
  destruct self as [pm pd]. simpl. intros ->.
  destruct m; first [null_after_msg | null_plain].
Qed.

(** ** Where modules are loaded *)

Lemma PhysicsWrapper_loads_not (E : Env) (t : ctype) (m : IPhysics.method t)
    (self : PhysicsWrapper.this) (tr : Trace) :
  resolves_first m = false ->
  loads (trace_of (PhysicsWrapper.invoke E m self tr)) = loads tr.
Proof.
  destruct self as [pm pd]. intros Hm.
  destruct m; try discriminate Hm;
    cbv -[Z.eqb respond loads]; destruct (pd =? 0); reflexivity.
Qed.

Lemma PhysicsSurfacePropsWrapper_loads_not (E : Env) (t : ctype)
    (m : IJoltPhysicsSurfaceProps.method t)
    (self : PhysicsSurfacePropsWrapper.this) (tr : Trace) :
  loads (trace_of (PhysicsSurfacePropsWrapper.invoke E m self tr)) = loads tr.
Proof.
  destruct self as [pm pd].
  destruct m; cbv -[Z.eqb respond loads]; destruct (pd =? 0); reflexivity.
Qed.

Lemma PhysicsCollisionWrapper_loads_not (E : Env) (t : ctype)
    (m : IJoltPhysicsCollision.method t)
    (self : PhysicsCollisionWrapper.this) (tr : Trace) :
  loads (trace_of (PhysicsCollisionWrapper.invoke E m self tr)) = loads tr.
Proof.
  destruct self as [pm pd].
  destruct m; cbv -[Z.eqb respond loads]; destruct (pd =? 0); reflexivity.
Qed.

Lemma Connect_loads_once (E : Env) (factory : ptr) (self : PhysicsWrapper.this) (tr : Trace) :
  PhysicsWrapper.m_pActualPhysicsInterface self = nullptr ->
  loads (trace_of (PhysicsWrapper.Connect E factory self tr)) = S (loads tr).
Proof.
  intros H.
  destruct (Sys_LoadInterface_result E (selected_module E) (VPHYSICS_INTERFACE_VERSION E) tr)
    as [[pm pd]|] eqn:Hl.
  - rewrite (Connect_load_succeeds E factory self tr pm pd H Hl). reflexivity.
  - rewrite (Connect_load_fails E factory self tr H Hl). reflexivity.
Qed.

Lemma QueryInterface_loads_once (E : Env) (name : ptr) (self : PhysicsWrapper.this)
    (tr : Trace) :
  PhysicsWrapper.m_pActualPhysicsInterface self = nullptr ->
  loads (trace_of (PhysicsWrapper.QueryInterface E name self tr)) = S (loads tr).
Proof.
  intros H.
  destruct (Sys_LoadInterface_result E (selected_module E) (VPHYSICS_INTERFACE_VERSION E) tr)
    as [[pm pd]|] eqn:Hl.
  - rewrite (QueryInterface_load_succeeds E name self tr pm pd H Hl). reflexivity.
  - rewrite (QueryInterface_load_fails E name self tr H Hl). reflexivity.
Qed.

Lemma PhysicsSurfacePropsWrapper_constructor_run (E : Env) (tr : Trace) :
  let entering := EvMsg "Debug: Entering %s\n" "PhysicsSurfacePropsWrapper" in
  let load := EvLoad (selected_module E) (VPHYSICS_SURFACEPROPS_INTERFACE_VERSION E) in
  PhysicsSurfacePropsWrapper.constructor E PhysicsSurfacePropsWrapper.zeroed tr =
    match Sys_LoadInterface_result E (selected_module E)
            (VPHYSICS_SURFACEPROPS_INTERFACE_VERSION E) (entering :: tr) with
    | Some (pModule, pInterface) =>
        Returns tt
          {| PhysicsSurfacePropsWrapper.m_pActualPhysicsSurfacePropsModule := pModule;
             PhysicsSurfacePropsWrapper.m_pActualPhysicsSurfacePropsInterface := pInterface |}
          (load :: entering :: tr)
    | None =>
        Returns tt PhysicsSurfacePropsWrapper.zeroed
          (EvMsg "Failed to load %s\n" (selected_module E) :: load :: entering :: tr)
    end.
Proof.
  intros entering load.
  unfold PhysicsSurfacePropsWrapper.constructor, bind, Msg, emit, gets, Sys_LoadInterface.
  fold (selected_module E). cbn [PhysicsSurfacePropsWrapper.zeroed
    PhysicsSurfacePropsWrapper.m_pActualPhysicsSurfacePropsInterface Z.eqb nullptr negb].
  fold entering.
  destruct (Sys_LoadInterface_result E (selected_module E)
              (VPHYSICS_SURFACEPROPS_INTERFACE_VERSION E) (entering :: tr)) as [[pm pd]|];
    reflexivity.
Qed.

Lemma PhysicsCollisionWrapper_constructor_run (E : Env) (tr : Trace) :
  let entering := EvMsg "Debug: Entering %s\n" "PhysicsCollisionWrapper" in
  let load := EvLoad (selected_module E) (VPHYSICS_COLLISION_INTERFACE_VERSION E) in
  PhysicsCollisionWrapper.constructor E PhysicsCollisionWrapper.zeroed tr =
    match Sys_LoadInterface_result E (selected_module E)
            (VPHYSICS_COLLISION_INTERFACE_VERSION E) (entering :: tr) with
    | Some (pModule, pInterface) =>
        Returns tt
          {| PhysicsCollisionWrapper.m_pActualPhysicsCollisionModule := pModule;
             PhysicsCollisionWrapper.m_pActualPhysicsCollisionInterface := pInterface |}
          (load :: entering :: tr)
    | None =>
        Returns tt PhysicsCollisionWrapper.zeroed
          (EvMsg "Failed to load %s\n" (selected_module E) :: load :: entering :: tr)
    end.
Proof.
  intros entering load.
  unfold PhysicsCollisionWrapper.constructor, bind, Msg, emit, gets, Sys_LoadInterface.
  fold (selected_module E). cbn [PhysicsCollisionWrapper.zeroed
    PhysicsCollisionWrapper.m_pActualPhysicsCollisionInterface Z.eqb nullptr negb].
  fold entering.
  destruct (Sys_LoadInterface_result E (selected_module E)
              (VPHYSICS_COLLISION_INTERFACE_VERSION E) (entering :: tr)) as [[pm pd]|];
    reflexivity.
Qed.

(** On storage that already holds a delegate the constructors return at
    once, without asking the loader. *)
Lemma PhysicsSurfacePropsWrapper_constructor_resolved (E : Env)
    (self : PhysicsSurfacePropsWrapper.this) (tr : Trace) :
  PhysicsSurfacePropsWrapper.m_pActualPhysicsSurfacePropsInterface self <> nullptr ->
  PhysicsSurfacePropsWrapper.constructor E self tr =
    Returns tt self (EvMsg "Debug: Entering %s\n" "PhysicsSurfacePropsWrapper" :: tr).
Proof.
  intros H. unfold PhysicsSurfacePropsWrapper.constructor, bind at 1, Msg, emit.
  unfold bind, gets.
  destruct (Z.eqb_spec
              (PhysicsSurfacePropsWrapper.m_pActualPhysicsSurfacePropsInterface self) nullptr);
    [contradiction | reflexivity].
Qed.

Lemma PhysicsCollisionWrapper_constructor_resolved (E : Env)
    (self : PhysicsCollisionWrapper.this) (tr : Trace) :
  PhysicsCollisionWrapper.m_pActualPhysicsCollisionInterface self <> nullptr ->
  PhysicsCollisionWrapper.constructor E self tr =
    Returns tt self (EvMsg "Debug: Entering %s\n" "PhysicsCollisionWrapper" :: tr).
Proof.
  intros H. unfold PhysicsCollisionWrapper.constructor, bind at 1, Msg, emit.
  unfold bind, gets.
  destruct (Z.eqb_spec
              (PhysicsCollisionWrapper.m_pActualPhysicsCollisionInterface self) nullptr);
    [contradiction | reflexivity].
Qed.

(** No override of an eager facade writes its fields, and neither does a
    non-resolving override of the environment facade: when such a call
    returns, the facade is as it was. *)
Lemma PhysicsWrapper_keeps_fields (E : Env) (t : ctype) (m : IPhysics.method t)
    (self self' : PhysicsWrapper.this) (tr : Trace) :
  resolves_first m = false ->
  facade_of (PhysicsWrapper.invoke E m self tr) = Some self' -> self' = self.
Proof.
  destruct self as [pm pd]. intros Hm.
  destruct m; try discriminate Hm;
    cbv -[Z.eqb respond]; destruct (pd =? 0); intros H;
    first [discriminate H | injection H as <-; reflexivity].
Qed.

Lemma PhysicsSurfacePropsWrapper_keeps_fields (E : Env) (t : ctype)
    (m : IJoltPhysicsSurfaceProps.method t)
    (self self' : PhysicsSurfacePropsWrapper.this) (tr : Trace) :
  facade_of (PhysicsSurfacePropsWrapper.invoke E m self tr) = Some self' -> self' = self.
Proof.
  destruct self as [pm pd].
  destruct m; cbv -[Z.eqb respond]; destruct (pd =? 0); intros H;
    first [discriminate H | injection H as <-; reflexivity].
Qed.

Lemma PhysicsCollisionWrapper_keeps_fields (E : Env) (t : ctype)
    (m : IJoltPhysicsCollision.method t)
    (self self' : PhysicsCollisionWrapper.this) (tr : Trace) :
  facade_of (PhysicsCollisionWrapper.invoke E m self tr) = Some self' -> self' = self.
Proof.
  destruct self as [pm pd].
  destruct m; cbv -[Z.eqb respond]; destruct (pd =? 0); intros H;
    first [discriminate H | injection H as <-; reflexivity].
Qed.

(** C9: the environment facade is the only lazy one.  The constructors of
    the surface-properties and collision facades, run on the singletons'
    zero-initialised storage, each ask the loader once for the module chosen
    by capability detection and, when it loads, store the module handle and
    the delegate: the facade is resolved when its constructor returns,
    before any method is called.  None of their methods ever loads or
    writes the fields.  The environment facade starts out unresolved; on an
    unresolved facade [Connect] and [QueryInterface] each make one load
    attempt and, when the module loads, store the module handle and the
    delegate; none of its other methods ever loads or writes the fields. *)
Theorem resolution_policy (E : Env) :
  (forall (tr : Trace) (pModule pInterface : ptr),
      Sys_LoadInterface_result E (selected_module E)
        (VPHYSICS_SURFACEPROPS_INTERFACE_VERSION E)
        (EvMsg "Debug: Entering %s\n" "PhysicsSurfacePropsWrapper" :: tr)
        = Some (pModule, pInterface) ->
      PhysicsSurfacePropsWrapper.constructor E PhysicsSurfacePropsWrapper.zeroed tr =
        Returns tt
          {| PhysicsSurfacePropsWrapper.m_pActualPhysicsSurfacePropsModule := pModule;
             PhysicsSurfacePropsWrapper.m_pActualPhysicsSurfacePropsInterface := pInterface |}
          (EvLoad (selected_module E) (VPHYSICS_SURFACEPROPS_INTERFACE_VERSION E)
             :: EvMsg "Debug: Entering %s\n" "PhysicsSurfacePropsWrapper" :: tr) /\
      pInterface <> nullptr) /\
  (forall (tr : Trace) (pModule pInterface : ptr),
      Sys_LoadInterface_result E (selected_module E)
        (VPHYSICS_COLLISION_INTERFACE_VERSION E)
        (EvMsg "Debug: Entering %s\n" "PhysicsCollisionWrapper" :: tr)
        = Some (pModule, pInterface) ->
      PhysicsCollisionWrapper.constructor E PhysicsCollisionWrapper.zeroed tr =
        Returns tt
          {| PhysicsCollisionWrapper.m_pActualPhysicsCollisionModule := pModule;
             PhysicsCollisionWrapper.m_pActualPhysicsCollisionInterface := pInterface |}
          (EvLoad (selected_module E) (VPHYSICS_COLLISION_INTERFACE_VERSION E)
             :: EvMsg "Debug: Entering %s\n" "PhysicsCollisionWrapper" :: tr) /\
      pInterface <> nullptr) /\
  (forall tr : Trace,
      loads (trace_of (PhysicsSurfacePropsWrapper.constructor E
                         PhysicsSurfacePropsWrapper.zeroed tr)) = S (loads tr) /\
      In (EvLoad (selected_module E) (VPHYSICS_SURFACEPROPS_INTERFACE_VERSION E))
         (trace_of (PhysicsSurfacePropsWrapper.constructor E
                      PhysicsSurfacePropsWrapper.zeroed tr))) /\
  (forall tr : Trace,
      loads (trace_of (PhysicsCollisionWrapper.constructor E
                         PhysicsCollisionWrapper.zeroed tr)) = S (loads tr) /\
      In (EvLoad (selected_module E) (VPHYSICS_COLLISION_INTERFACE_VERSION E))
         (trace_of (PhysicsCollisionWrapper.constructor E
                      PhysicsCollisionWrapper.zeroed tr))) /\
  loads (trace_of (PhysicsSurfacePropsWrapper.s_PhysicsSurfaceProps E)) = 1%nat /\
  loads (trace_of (PhysicsCollisionWrapper.s_PhysicsCollision E)) = 1%nat /\
  (forall (t : ctype) (m : IJoltPhysicsSurfaceProps.method t)
          (self : PhysicsSurfacePropsWrapper.this) (tr : Trace),
      loads (trace_of (PhysicsSurfacePropsWrapper.invoke E m self tr)) = loads tr /\
      (forall self' : PhysicsSurfacePropsWrapper.this,
          facade_of (PhysicsSurfacePropsWrapper.invoke E m self tr) = Some self' ->
          self' = self)) /\
  (forall (t : ctype) (m : IJoltPhysicsCollision.method t)
          (self : PhysicsCollisionWrapper.this) (tr : Trace),
      loads (trace_of (PhysicsCollisionWrapper.invoke E m self tr)) = loads tr /\
      (forall self' : PhysicsCollisionWrapper.this,
          facade_of (PhysicsCollisionWrapper.invoke E m self tr) = Some self' ->
          self' = self)) /\
  PhysicsWrapper.m_pActualPhysicsInterface PhysicsWrapper.s_PhysicsInterface = nullptr /\
  (forall (factory : ptr) (self : PhysicsWrapper.this) (tr : Trace),
      PhysicsWrapper.m_pActualPhysicsInterface self = nullptr ->
      loads (trace_of (PhysicsWrapper.Connect E factory self tr)) = S (loads tr) /\
      (forall pModule pInterface : ptr,
          Sys_LoadInterface_result E (selected_module E) (VPHYSICS_INTERFACE_VERSION E) tr
            = Some (pModule, pInterface) ->
          facade_of (PhysicsWrapper.Connect E factory self tr) =
            Some {| PhysicsWrapper.m_pActualPhysicsModule := pModule;
                    PhysicsWrapper.m_pActualPhysicsInterface := pInterface |} /\
          pInterface <> nullptr)) /\
  (forall (pInterfaceName : ptr) (self : PhysicsWrapper.this) (tr : Trace),
      PhysicsWrapper.m_pActualPhysicsInterface self = nullptr ->
      loads (trace_of (PhysicsWrapper.QueryInterface E pInterfaceName self tr)) = S (loads tr) /\
      (forall pModule pInterface : ptr,
          Sys_LoadInterface_result E (selected_module E) (VPHYSICS_INTERFACE_VERSION E) tr
            = Some (pModule, pInterface) ->
          facade_of (PhysicsWrapper.QueryInterface E pInterfaceName self tr) =
            Some {| PhysicsWrapper.m_pActualPhysicsModule := pModule;
                    PhysicsWrapper.m_pActualPhysicsInterface := pInterface |} /\
          pInterface <> nullptr)) /\
  (forall (t : ctype) (m : IPhysics.method t) (self : PhysicsWrapper.this) (tr : Trace),
      resolves_first m = false ->
      loads (trace_of (PhysicsWrapper.invoke E m self tr)) = loads tr /\
      (forall self' : PhysicsWrapper.this,
          facade_of (PhysicsWrapper.invoke E m self tr) = Some self' -> self' = self)).
Proof.
  assert (forall tr : Trace,
      loads (trace_of (PhysicsSurfacePropsWrapper.constructor E
                         PhysicsSurfacePropsWrapper.zeroed tr)) = S (loads tr) /\
      In (EvLoad (selected_module E) (VPHYSICS_SURFACEPROPS_INTERFACE_VERSION E))
         (trace_of (PhysicsSurfacePropsWrapper.constructor E
                      PhysicsSurfacePropsWrapper.zeroed tr))) as HS.
  { intros tr. rewrite PhysicsSurfacePropsWrapper_constructor_run.
    destruct (Sys_LoadInterface_result _ _ _ _) as [[pm pd]|]; simpl; auto. }
  assert (forall tr : Trace,
      loads (trace_of (PhysicsCollisionWrapper.constructor E
                         PhysicsCollisionWrapper.zeroed tr)) = S (loads tr) /\
      In (EvLoad (selected_module E) (VPHYSICS_COLLISION_INTERFACE_VERSION E))
         (trace_of (PhysicsCollisionWrapper.constructor E
                      PhysicsCollisionWrapper.zeroed tr))) as HC.
  { intros tr. rewrite PhysicsCollisionWrapper_constructor_run.
    destruct (Sys_LoadInterface_result _ _ _ _) as [[pm pd]|]; simpl; auto. }
  split; [|split].
  - intros tr pm pd Hl. split.
    + rewrite PhysicsSurfacePropsWrapper_constructor_run, Hl. reflexivity.
    + exact (Sys_LoadInterface_result_nonnull _ _ _ _ _ _ Hl).
  - intros tr pm pd Hl. split.
    + rewrite PhysicsCollisionWrapper_constructor_run, Hl. reflexivity.
    + exact (Sys_LoadInterface_result_nonnull _ _ _ _ _ _ Hl).
  - split; [exact HS|]. split; [exact HC|].
    split; [exact (proj1 (HS []))|]. split; [exact (proj1 (HC []))|].
    split.
    { intros t m self tr. split.
      - apply PhysicsSurfacePropsWrapper_loads_not.
      - intros self'. apply PhysicsSurfacePropsWrapper_keeps_fields. }
    split.
    { intros t m self tr. split.
      - apply PhysicsCollisionWrapper_loads_not.
      - intros self'. apply PhysicsCollisionWrapper_keeps_fields. }
    split; [reflexivity|].
    split.
    { intros factory self tr Hnull. split.
      - apply Connect_loads_once, Hnull.
      - intros pm pd Hl.
        rewrite (Connect_load_succeeds E factory self tr pm pd Hnull Hl).
        split; [reflexivity | exact (Sys_LoadInterface_result_nonnull _ _ _ _ _ _ Hl)]. }
    split.
    { intros name self tr Hnull. split.
      - apply QueryInterface_loads_once, Hnull.
      - intros pm pd Hl.
        rewrite (QueryInterface_load_succeeds E name self tr pm pd Hnull Hl).
        split; [reflexivity | exact (Sys_LoadInterface_result_nonnull _ _ _ _ _ _ Hl)]. }
    intros t m self tr Hm. split.
    + apply PhysicsWrapper_loads_not, Hm.
    + intros self'. apply PhysicsWrapper_keeps_fields, Hm.
Qed.

Lemma resolution_policy_witness :
  PhysicsSurfacePropsWrapper.s_PhysicsSurfaceProps (host loader_loads) =
    Returns tt active_surfaceprops
      [EvLoad "vphysics_jolt_sse2.dll" "VPhysicsSurfaceProps001";
       EvMsg "Debug: Entering %s\n" "PhysicsSurfacePropsWrapper"] /\
  PhysicsCollisionWrapper.s_PhysicsCollision (host loader_loads) =
    Returns tt active_collision
      [EvLoad "vphysics_jolt_sse2.dll" "VPhysicsCollision007";
       EvMsg "Debug: Entering %s\n" "PhysicsCollisionWrapper"] /\
  loads (trace_of (PhysicsWrapper.Connect (host loader_loads) 77
                     PhysicsWrapper.s_PhysicsInterface [])) = 1%nat /\
  facade_of (PhysicsWrapper.Connect (host loader_loads) 77
               PhysicsWrapper.s_PhysicsInterface []) = Some active_facade /\
  loads (trace_of (PhysicsWrapper.QueryInterface (host loader_loads) 5
                     PhysicsWrapper.s_PhysicsInterface [])) = 1%nat /\
  facade_of (PhysicsWrapper.QueryInterface (host loader_loads) 5
               PhysicsWrapper.s_PhysicsInterface []) = Some active_facade /\
  loads (trace_of (PhysicsWrapper.invoke (host loader_loads) IPhysics.Init
                     PhysicsWrapper.s_PhysicsInterface [])) = 0%nat.
Proof.
  pose proof (resolution_policy (host loader_loads))
    as [HSctor [HCctor [_ [_ [_ [_ [_ [_ [_ [HConnect [HQuery HOther]]]]]]]]]]].
  pose proof (HConnect 77 PhysicsWrapper.s_PhysicsInterface [] eq_refl) as [HCl HCf].
  pose proof (HQuery 5 PhysicsWrapper.s_PhysicsInterface [] eq_refl) as [HQl HQf].
  repeat match goal with |- _ /\ _ => split end.
  - exact (proj1 (HSctor [] 4096 8192 eq_refl)).
  - exact (proj1 (HCctor [] 4096 8192 eq_refl)).
  - exact HCl.
  - exact (proj1 (HCf 4096 8192 eq_refl)).
  - exact HQl.
  - exact (proj1 (HQf 4096 8192 eq_refl)).
  - exact (proj1 (HOther _ IPhysics.Init PhysicsWrapper.s_PhysicsInterface [] eq_refl)).
Defined.

(** ** Unresolved facades *)

(** C2 (counterexample): with a loader that fails, [Init] on the unresolved
    environment facade does not report failure but calls through the null
    delegate; likewise [ParseSurfaceData] on the surface-properties facade
    whose constructor could not load its module. *)
Lemma unresolved_facade_dereferences_null :
  PhysicsWrapper.Init (host loader_fails) PhysicsWrapper.s_PhysicsInterface [] = NullDeref [] /\
  PhysicsSurfacePropsWrapper.s_PhysicsSurfaceProps (host loader_fails) =
    Returns tt PhysicsSurfacePropsWrapper.zeroed
      [EvMsg "Failed to load %s\n" "vphysics_jolt_sse2.dll";
       EvLoad "vphysics_jolt_sse2.dll" "VPhysicsSurfaceProps001";
       EvMsg "Debug: Entering %s\n" "PhysicsSurfacePropsWrapper"] /\
  PhysicsSurfacePropsWrapper.ParseSurfaceData (host loader_fails) 1 2
      PhysicsSurfacePropsWrapper.zeroed [] =
    NullDeref [EvMsg "Debug: Entering %s\n" "ParseSurfaceData"].
Proof. repeat split; reflexivity. Qed.

(** C2 (amended): while a facade's delegate pointer is null no call reaches
    a delegate, but failure is surfaced only by [Connect] (false) and
    [QueryInterface] (null) of the environment facade, when the load they
    attempt fails.  Every other method of the environment facade, and every
    method of the surface-properties and collision facades, dereferences
    the null delegate unchecked.  A constructor of an eager facade whose
    load fails returns normally with the delegate still null, having only
    printed a message. *)
Theorem null_delegate_is_unchecked (E : Env) :
  (forall (factory : ptr) (self : PhysicsWrapper.this) (tr : Trace),
      PhysicsWrapper.m_pActualPhysicsInterface self = nullptr ->
      Sys_LoadInterface_result E (selected_module E) (VPHYSICS_INTERFACE_VERSION E) tr = None ->
      PhysicsWrapper.Connect E factory self tr =
        Returns false self (EvLoad (selected_module E) (VPHYSICS_INTERFACE_VERSION E) :: tr)) /\
  (forall (pInterfaceName : ptr) (self : PhysicsWrapper.this) (tr : Trace),
      PhysicsWrapper.m_pActualPhysicsInterface self = nullptr ->
      Sys_LoadInterface_result E (selected_module E) (VPHYSICS_INTERFACE_VERSION E) tr = None ->
      PhysicsWrapper.QueryInterface E pInterfaceName self tr =
        Returns nullptr self (EvLoad (selected_module E) (VPHYSICS_INTERFACE_VERSION E) :: tr)) /\
  (forall (t : ctype) (m : IPhysics.method t) (self : PhysicsWrapper.this) (tr : Trace),
      PhysicsWrapper.m_pActualPhysicsInterface self = nullptr ->
      resolves_first m = false ->
      PhysicsWrapper.invoke E m self tr = NullDeref tr) /\
  (forall (t : ctype) (m : IJoltPhysicsSurfaceProps.method t)
          (self : PhysicsSurfacePropsWrapper.this) (tr : Trace),
      PhysicsSurfacePropsWrapper.m_pActualPhysicsSurfacePropsInterface self = nullptr ->
      dereferences_null (PhysicsSurfacePropsWrapper.invoke E m) self tr) /\
  (forall (t : ctype) (m : IJoltPhysicsCollision.method t)
          (self : PhysicsCollisionWrapper.this) (tr : Trace),
      PhysicsCollisionWrapper.m_pActualPhysicsCollisionInterface self = nullptr ->
      dereferences_null (PhysicsCollisionWrapper.invoke E m) self tr) /\
  (forall tr : Trace,
      Sys_LoadInterface_result E (selected_module E) (VPHYSICS_SURFACEPROPS_INTERFACE_VERSION E)
        (EvMsg "Debug: Entering %s\n" "PhysicsSurfacePropsWrapper" :: tr) = None ->
      PhysicsSurfacePropsWrapper.constructor E PhysicsSurfacePropsWrapper.zeroed tr =
        Returns tt PhysicsSurfacePropsWrapper.zeroed
          (EvMsg "Failed to load %s\n" (selected_module E)
             :: EvLoad (selected_module E) (VPHYSICS_SURFACEPROPS_INTERFACE_VERSION E)
             :: EvMsg "Debug: Entering %s\n" "PhysicsSurfacePropsWrapper" :: tr)) /\
  (forall tr : Trace,
      Sys_LoadInterface_result E (selected_module E) (VPHYSICS_COLLISION_INTERFACE_VERSION E)
        (EvMsg "Debug: Entering %s\n" "PhysicsCollisionWrapper" :: tr) = None ->
      PhysicsCollisionWrapper.constructor E PhysicsCollisionWrapper.zeroed tr =
        Returns tt PhysicsCollisionWrapper.zeroed
          (EvMsg "Failed to load %s\n" (selected_module E)
             :: EvLoad (selected_module E) (VPHYSICS_COLLISION_INTERFACE_VERSION E)
             :: EvMsg "Debug: Entering %s\n" "PhysicsCollisionWrapper" :: tr)).
Proof.
  repeat match goal with |- _ /\ _ => split end.
  - intros. apply Connect_load_fails; assumption.
  - intros. apply QueryInterface_load_fails; assumption.
  - apply PhysicsWrapper_null.
  - apply PhysicsSurfacePropsWrapper_null.
  - apply PhysicsCollisionWrapper_null.
  - intros tr Hl. rewrite PhysicsSurfacePropsWrapper_constructor_run, Hl. reflexivity.
  - intros tr Hl. rewrite PhysicsCollisionWrapper_constructor_run, Hl. reflexivity.
Qed.

Lemma null_delegate_is_unchecked_witness :
  PhysicsWrapper.Connect (host loader_fails) 77 PhysicsWrapper.s_PhysicsInterface [] =
    Returns false PhysicsWrapper.s_PhysicsInterface
      [EvLoad "vphysics_jolt_sse2.dll" "VPhysics031"] /\
  PhysicsWrapper.QueryInterface (host loader_fails) 5 PhysicsWrapper.s_PhysicsInterface [] =
    Returns nullptr PhysicsWrapper.s_PhysicsInterface
      [EvLoad "vphysics_jolt_sse2.dll" "VPhysics031"] /\
  PhysicsWrapper.invoke (host loader_fails) (IPhysics.FindCollisionSet 3)
      PhysicsWrapper.s_PhysicsInterface [] = NullDeref [] /\
  dereferences_null
    (PhysicsSurfacePropsWrapper.invoke (host loader_fails)
       (IJoltPhysicsSurfaceProps.GetSurfaceIndex 100))
    PhysicsSurfacePropsWrapper.zeroed [] /\
  dereferences_null
    (PhysicsCollisionWrapper.invoke (host loader_fails)
       (IJoltPhysicsCollision.CollideVolume 200))
    PhysicsCollisionWrapper.zeroed [] /\
  PhysicsCollisionWrapper.constructor (host loader_fails) PhysicsCollisionWrapper.zeroed [] =
    Returns tt PhysicsCollisionWrapper.zeroed
      [EvMsg "Failed to load %s\n" "vphysics_jolt_sse2.dll";
       EvLoad "vphysics_jolt_sse2.dll" "VPhysicsCollision007";
       EvMsg "Debug: Entering %s\n" "PhysicsCollisionWrapper"].
Proof.
  pose proof (null_delegate_is_unchecked (host loader_fails))
    as [HConnect [HQuery [HP [HS [HC [_ HCtor]]]]]].
  repeat match goal with |- _ /\ _ => split end.
  - exact (HConnect 77 PhysicsWrapper.s_PhysicsInterface [] eq_refl eq_refl).
  - exact (HQuery 5 PhysicsWrapper.s_PhysicsInterface [] eq_refl eq_refl).
  - exact (HP _ (IPhysics.FindCollisionSet 3) PhysicsWrapper.s_PhysicsInterface []
             eq_refl eq_refl).
  - exact (HS _ (IJoltPhysicsSurfaceProps.GetSurfaceIndex 100)
             PhysicsSurfacePropsWrapper.zeroed [] eq_refl).
  - exact (HC _ (IJoltPhysicsCollision.CollideVolume 200)
             PhysicsCollisionWrapper.zeroed [] eq_refl).
  - exact (HCtor [] eq_refl).
Defined.

(** ** After a failed resolution *)

(** C8 (counterexample): the module is missing when [Connect] is called and
    present afterwards.  [Connect] fails; the [QueryInterface] that follows
    attempts the load again on its own, resolves the facade and forwards:
    two load attempts, and a facade that left the failed state. *)
Lemma failed_resolution_attempted_again :
  PhysicsWrapper.Connect (host loader_second_try) 77 PhysicsWrapper.s_PhysicsInterface [] =
    Returns false PhysicsWrapper.s_PhysicsInterface
      [EvLoad "vphysics_jolt_sse2.dll" "VPhysics031"] /\
  PhysicsWrapper.QueryInterface (host loader_second_try) 5 PhysicsWrapper.s_PhysicsInterface
      [EvLoad "vphysics_jolt_sse2.dll" "VPhysics031"] =
    Returns 8197 active_facade
      [EvCall 8192 (OnPhysics (IPhysics.QueryInterface 5));
       EvLoad "vphysics_jolt_sse2.dll" "VPhysics031";
       EvLoad "vphysics_jolt_sse2.dll" "VPhysics031"] /\
  loads (trace_of
           (bind (PhysicsWrapper.Connect (host loader_second_try) 77)
                 (fun _ => PhysicsWrapper.QueryInterface (host loader_second_try) 5)
                 PhysicsWrapper.s_PhysicsInterface [])) = 2%nat.
Proof. repeat split; reflexivity. Qed.

(** C8 (amended): for every facade a failed resolution makes one load
    attempt and leaves the facade's fields as they were.  On the
    surface-properties and collision facades that state is final: no method
    and no destructor ever attempts a load or writes the fields.  On the
    environment facade nothing records the failure: its other overrides
    never attempt a load or write the fields, but every later [Connect] or
    [QueryInterface] on the still unresolved facade makes one new load
    attempt, and one that finds the module resolves the facade. *)
Theorem failed_resolution_retried_only_by_resolving_methods (E : Env) :
  (forall (self : PhysicsWrapper.this) (tr : Trace),
      PhysicsWrapper.m_pActualPhysicsInterface self = nullptr ->
      Sys_LoadInterface_result E (selected_module E) (VPHYSICS_INTERFACE_VERSION E) tr = None ->
      PhysicsWrapper.InitWrapper E self tr =
        Returns false self
          (EvLoad (selected_module E) (VPHYSICS_INTERFACE_VERSION E) :: tr)) /\
  (forall tr : Trace,
      Sys_LoadInterface_result E (selected_module E) (VPHYSICS_SURFACEPROPS_INTERFACE_VERSION E)
        (EvMsg "Debug: Entering %s\n" "PhysicsSurfacePropsWrapper" :: tr) = None ->
      facade_of (PhysicsSurfacePropsWrapper.constructor E
                   PhysicsSurfacePropsWrapper.zeroed tr)
        = Some PhysicsSurfacePropsWrapper.zeroed /\
      loads (trace_of (PhysicsSurfacePropsWrapper.constructor E
                         PhysicsSurfacePropsWrapper.zeroed tr)) = S (loads tr)) /\
  (forall tr : Trace,
      Sys_LoadInterface_result E (selected_module E) (VPHYSICS_COLLISION_INTERFACE_VERSION E)
        (EvMsg "Debug: Entering %s\n" "PhysicsCollisionWrapper" :: tr) = None ->
      facade_of (PhysicsCollisionWrapper.constructor E
                   PhysicsCollisionWrapper.zeroed tr)
        = Some PhysicsCollisionWrapper.zeroed /\
      loads (trace_of (PhysicsCollisionWrapper.constructor E
                         PhysicsCollisionWrapper.zeroed tr)) = S (loads tr)) /\
  (forall (t : ctype) (m : IJoltPhysicsSurfaceProps.method t)
          (self : PhysicsSurfacePropsWrapper.this) (tr : Trace),
      loads (trace_of (PhysicsSurfacePropsWrapper.invoke E m self tr)) = loads tr /\
      (forall self' : PhysicsSurfacePropsWrapper.this,
          facade_of (PhysicsSurfacePropsWrapper.invoke E m self tr) = Some self' ->
          self' = self)) /\
  (forall (self : PhysicsSurfacePropsWrapper.this) (tr : Trace),
      loads (trace_of (PhysicsSurfacePropsWrapper.destructor self tr)) = loads tr /\
      facade_of (PhysicsSurfacePropsWrapper.destructor self tr) = Some self) /\
  (forall (t : ctype) (m : IJoltPhysicsCollision.method t)
          (self : PhysicsCollisionWrapper.this) (tr : Trace),
      loads (trace_of (PhysicsCollisionWrapper.invoke E m self tr)) = loads tr /\
      (forall self' : PhysicsCollisionWrapper.this,
          facade_of (PhysicsCollisionWrapper.invoke E m self tr) = Some self' ->
          self' = self)) /\
  (forall (self : PhysicsCollisionWrapper.this) (tr : Trace),
      loads (trace_of (PhysicsCollisionWrapper.destructor self tr)) = loads tr /\
      facade_of (PhysicsCollisionWrapper.destructor self tr) = Some self) /\
  (forall (t : ctype) (m : IPhysics.method t) (self : PhysicsWrapper.this) (tr : Trace),
      resolves_first m = false ->
      loads (trace_of (PhysicsWrapper.invoke E m self tr)) = loads tr /\
      (forall self' : PhysicsWrapper.this,
          facade_of (PhysicsWrapper.invoke E m self tr) = Some self' -> self' = self)) /\
  (forall (factory : ptr) (self : PhysicsWrapper.this) (tr2 : Trace),
      PhysicsWrapper.m_pActualPhysicsInterface self = nullptr ->
      loads (trace_of (PhysicsWrapper.Connect E factory self tr2)) = S (loads tr2)) /\
  (forall (pInterfaceName : ptr) (self : PhysicsWrapper.this) (tr2 : Trace),
      PhysicsWrapper.m_pActualPhysicsInterface self = nullptr ->
      loads (trace_of (PhysicsWrapper.QueryInterface E pInterfaceName self tr2))
        = S (loads tr2)) /\
  (forall (self : PhysicsWrapper.this) (tr2 : Trace) (pModule pInterface : ptr),
      PhysicsWrapper.m_pActualPhysicsInterface self = nullptr ->
      Sys_LoadInterface_result E (selected_module E) (VPHYSICS_INTERFACE_VERSION E) tr2
        = Some (pModule, pInterface) ->
      PhysicsWrapper.InitWrapper E self tr2 =
        Returns true
          {| PhysicsWrapper.m_pActualPhysicsModule := pModule;
             PhysicsWrapper.m_pActualPhysicsInterface := pInterface |}
          (EvLoad (selected_module E) (VPHYSICS_INTERFACE_VERSION E) :: tr2)).
Proof.
  split; [|split; [|split]].
  - intros self tr Hnull Hl. apply InitWrapper_load_fails; assumption.
  - intros tr Hl. rewrite PhysicsSurfacePropsWrapper_constructor_run, Hl.
    split; reflexivity.
  - intros tr Hl. rewrite PhysicsCollisionWrapper_constructor_run, Hl.
    split; reflexivity.
  - split.
    { intros t m self tr. split.
      - apply PhysicsSurfacePropsWrapper_loads_not.
      - intros self'. apply PhysicsSurfacePropsWrapper_keeps_fields. }
    split; [intros self tr; split; reflexivity|].
    split.
    { intros t m self tr. split.
      - apply PhysicsCollisionWrapper_loads_not.
      - intros self'. apply PhysicsCollisionWrapper_keeps_fields. }
    split; [intros self tr; split; reflexivity|].
    split.
    { intros t m self tr Hm. split.
      - apply PhysicsWrapper_loads_not, Hm.
      - intros self'. apply PhysicsWrapper_keeps_fields, Hm. }
    split; [intros factory self tr2 Hnull; apply Connect_loads_once, Hnull|].
    split; [intros name self tr2 Hnull; apply QueryInterface_loads_once, Hnull|].
    intros self tr2 pm pd Hnull Hl. apply InitWrapper_load_succeeds; assumption.
Qed.

Lemma failed_resolution_retried_only_by_resolving_methods_witness :
  PhysicsWrapper.InitWrapper (host loader_second_try) PhysicsWrapper.s_PhysicsInterface [] =
    Returns false PhysicsWrapper.s_PhysicsInterface
      [EvLoad "vphysics_jolt_sse2.dll" "VPhysics031"] /\
  facade_of (PhysicsSurfacePropsWrapper.constructor (host loader_fails)
               PhysicsSurfacePropsWrapper.zeroed [])
    = Some PhysicsSurfacePropsWrapper.zeroed /\
  facade_of (PhysicsCollisionWrapper.constructor (host loader_fails)
               PhysicsCollisionWrapper.zeroed [])
    = Some PhysicsCollisionWrapper.zeroed /\
  loads (trace_of (PhysicsWrapper.invoke (host loader_second_try) IPhysics.Init
                     PhysicsWrapper.s_PhysicsInterface
                     [EvLoad "vphysics_jolt_sse2.dll" "VPhysics031"])) = 1%nat /\
  loads (trace_of (PhysicsWrapper.Connect (host loader_second_try) 77
                     PhysicsWrapper.s_PhysicsInterface
                     [EvLoad "vphysics_jolt_sse2.dll" "VPhysics031"])) = 2%nat /\
  PhysicsWrapper.InitWrapper (host loader_second_try) PhysicsWrapper.s_PhysicsInterface
      [EvLoad "vphysics_jolt_sse2.dll" "VPhysics031"] =
    Returns true active_facade
      [EvLoad "vphysics_jolt_sse2.dll" "VPhysics031";
       EvLoad "vphysics_jolt_sse2.dll" "VPhysics031"].
Proof.
  pose proof (failed_resolution_retried_only_by_resolving_methods (host loader_second_try))
    as [HInit [_ [_ [_ [_ [_ [_ [HOther [HConnect [_ HLater]]]]]]]]]].
  pose proof (failed_resolution_retried_only_by_resolving_methods (host loader_fails))
    as [_ [HSctor [HCctor _]]].
  repeat match goal with |- _ /\ _ => split end.
  - exact (HInit PhysicsWrapper.s_PhysicsInterface [] eq_refl eq_refl).
  - exact (proj1 (HSctor [] eq_refl)).
  - exact (proj1 (HCctor [] eq_refl)).
  - exact (proj1 (HOther _ IPhysics.Init PhysicsWrapper.s_PhysicsInterface
                    [EvLoad "vphysics_jolt_sse2.dll" "VPhysics031"] eq_refl)).
  - exact (HConnect 77 PhysicsWrapper.s_PhysicsInterface
             [EvLoad "vphysics_jolt_sse2.dll" "VPhysics031"] eq_refl).
  - exact (HLater PhysicsWrapper.s_PhysicsInterface
             [EvLoad "vphysics_jolt_sse2.dll" "VPhysics031"] 4096 8192 eq_refl eq_refl).
Defined.

(* ================================================================== *)
(** * Further properties of the shim *)

(** ** Which tier, which file *)

(** X1: the detector answers [CPU_HAS_AVX2] exactly when CPUID reports at
    least 7 basic leaves and bit 5 of leaf 7's EBX is set, [CPU_HAS_SSE42]
    exactly when it reports fewer than 7 leaves and bit 20 of leaf 1's ECX
    is set, and [CPU_HAS_SSE2] in the two remaining cases. *)
Theorem GetCPULevel_characterised (cpuid : Z -> Z -> cpuInfo_t) :
  (CPU.GetCPULevel cpuid = CPU_HAS_AVX2 <->
     info0 (cpuid 0 0) >= 7 /\ Z.testbit (info1 (cpuid 7 0)) 5 = true) /\
  (CPU.GetCPULevel cpuid = CPU_HAS_SSE42 <->
     info0 (cpuid 0 0) < 7 /\ Z.testbit (info2 (cpuid 1 0)) 20 = true) /\
  (CPU.GetCPULevel cpuid = CPU_HAS_SSE2 <->
     (info0 (cpuid 0 0) >= 7 /\ Z.testbit (info1 (cpuid 7 0)) 5 = false) \/
     (info0 (cpuid 0 0) < 7 /\ Z.testbit (info2 (cpuid 1 0)) 20 = false)).
Proof.
  rewrite GetCPULevel_cases.
  unfold CPU.has_leaf7, CPU.avx2_bit, CPU.sse42_bit.
  destruct (Z.geb_spec (info0 (cpuid 0 0)) 7) as [Hge|Hlt];
    destruct (Z.testbit (info1 (cpuid 7 0)) 5);
    destruct (Z.testbit (info2 (cpuid 1 0)) 20);
    repeat match goal with |- _ /\ _ => split end;
    split; intros H;
    repeat match goal with
           | H : _ /\ _ |- _ => destruct H
           | H : _ \/ _ |- _ => destruct H
           end;
    try discriminate; try lia; try reflexivity;
    first [ split; [lia | reflexivity]
          | left; split; [lia | reflexivity]
          | right; split; [lia | reflexivity] ].
Qed.

Lemma GetModuleFromCPULevel_inj (ext : string) (l1 l2 : CPULevel_t) :
  GetModuleFromCPULevel ext l1 = GetModuleFromCPULevel ext l2 -> l1 = l2.
Proof.
  destruct l1, l2; simpl; intros H; first [reflexivity | discriminate H | idtac];
    exfalso; repeat (injection H as _ H); discriminate H.
Qed.

(** X2: the file every facade asks the loader for is the AVX2 build exactly
    when the detector's AVX2 condition holds, the SSE4.2 build exactly when
    fewer than 7 leaves are reported and the SSE4.2 bit is set, and the
    SSE2 build otherwise; in particular the SSE4.2 build is never asked for
    on a processor that reports leaf 7. *)
Theorem selected_module_by_hardware (E : Env) :
  (selected_module E = ("vphysics_jolt_avx2" ++ DLL_EXT_STRING E)%string <->
     info0 (GetCPUID E 0 0) >= 7 /\ Z.testbit (info1 (GetCPUID E 7 0)) 5 = true) /\
  (selected_module E = ("vphysics_jolt_sse42" ++ DLL_EXT_STRING E)%string <->
     info0 (GetCPUID E 0 0) < 7 /\ Z.testbit (info2 (GetCPUID E 1 0)) 20 = true) /\
  (selected_module E = ("vphysics_jolt_sse2" ++ DLL_EXT_STRING E)%string <->
     (info0 (GetCPUID E 0 0) >= 7 /\ Z.testbit (info1 (GetCPUID E 7 0)) 5 = false) \/
     (info0 (GetCPUID E 0 0) < 7 /\ Z.testbit (info2 (GetCPUID E 1 0)) 20 = false)) /\
  (info0 (GetCPUID E 0 0) >= 7 ->
     selected_module E <> ("vphysics_jolt_sse42" ++ DLL_EXT_STRING E)%string).
Proof.
  assert (forall l : CPULevel_t,
             selected_module E = GetModuleFromCPULevel (DLL_EXT_STRING E) l <->
             CPU.GetCPULevel (GetCPUID E) = l) as Hname.
  { intros l. unfold selected_module, GetCPULevel. split.
    - apply GetModuleFromCPULevel_inj.
    - intros ->. reflexivity. }
  pose proof (Hname CPU_HAS_AVX2) as Havx.
  pose proof (Hname CPU_HAS_SSE42) as Hsse42.
  pose proof (Hname CPU_HAS_SSE2) as Hsse2.
  simpl in Havx, Hsse42, Hsse2.
  rewrite Havx, Hsse42, Hsse2.
  rewrite GetCPULevel_cases.
  unfold CPU.has_leaf7, CPU.avx2_bit, CPU.sse42_bit.
  destruct (Z.geb_spec (info0 (GetCPUID E 0 0)) 7) as [Hge|Hlt];
    destruct (Z.testbit (info1 (GetCPUID E 7 0)) 5);
    destruct (Z.testbit (info2 (GetCPUID E 1 0)) 20);
    repeat match goal with |- _ /\ _ => split end;
    try (intros _; discriminate); try (intros; lia);
    split; intros H;
    repeat match goal with
           | H : _ /\ _ |- _ => destruct H
           | H : _ \/ _ |- _ => destruct H
           end;
    try discriminate; try lia; try reflexivity;
    first [ split; [lia | reflexivity]
          | left; split; [lia | reflexivity]
          | right; split; [lia | reflexivity] ].
Qed.

(** ** Resolution, seen from its callers *)

(** X3: [InitWrapper], [Connect] and [QueryInterface] never call through a
    null delegate, whatever the facade holds and whatever the loader does:
    [InitWrapper] always returns, true exactly when the facade then holds a
    delegate, and without calling any delegate; [Connect] and
    [QueryInterface] always return. *)
Theorem resolving_methods_never_dereference_null (E : Env) (factory pInterfaceName : ptr)
    (self : PhysicsWrapper.this) (tr : Trace) :
  (exists (ok : bool) (self' : PhysicsWrapper.this) (tr' : Trace),
      PhysicsWrapper.InitWrapper E self tr = Returns ok self' tr' /\
      (ok = true <-> PhysicsWrapper.m_pActualPhysicsInterface self' <> nullptr) /\
      delegate_calls tr' = delegate_calls tr) /\
  (exists (ok : bool) (self' : PhysicsWrapper.this) (tr' : Trace),
      PhysicsWrapper.Connect E factory self tr = Returns ok self' tr') /\
  (exists (p : ptr) (self' : PhysicsWrapper.this) (tr' : Trace),
      PhysicsWrapper.QueryInterface E pInterfaceName self tr = Returns p self' tr').
Proof.
  destruct (Z.eq_dec (PhysicsWrapper.m_pActualPhysicsInterface self) nullptr) as [Hnull|Hres].
  - destruct (Sys_LoadInterface_result E (selected_module E) (VPHYSICS_INTERFACE_VERSION E) tr)
      as [[pm pd]|] eqn:Hl.
    + pose proof (Sys_LoadInterface_result_nonnull _ _ _ _ _ _ Hl) as Hpd.
      split; [|split].
      * rewrite (InitWrapper_load_succeeds E self tr pm pd Hnull Hl).
        do 3 eexists. split; [reflexivity|]. split; [|reflexivity].
        simpl. split; [intros _; exact Hpd | reflexivity].
      * rewrite (Connect_load_succeeds E factory self tr pm pd Hnull Hl). eauto.
      * rewrite (QueryInterface_load_succeeds E pInterfaceName self tr pm pd Hnull Hl). eauto.
    + split; [|split].
      * rewrite (InitWrapper_load_fails E self tr Hnull Hl).
        do 3 eexists. split; [reflexivity|]. split; [|reflexivity].
        split; [discriminate | intros H; contradiction].
      * rewrite (Connect_load_fails E factory self tr Hnull Hl). eauto.
      * rewrite (QueryInterface_load_fails E pInterfaceName self tr Hnull Hl). eauto.
  - split; [|split].
    + rewrite (InitWrapper_resolved E self tr Hres).
      do 3 eexists. split; [reflexivity|]. split; [|reflexivity].
      split; [intros _; exact Hres | reflexivity].
    + rewrite (Connect_resolved E factory self tr Hres). eauto.
    + rewrite (QueryInterface_resolved E pInterfaceName self tr Hres). eauto.
Qed.

(** X4: [Connect] on an unresolved facade whose module loads stores the
    module handle and the delegate, then forwards [Connect] with the same
    factory to that delegate and returns its answer.  The facade keeps the
    module and the delegate whatever that answer is: a delegate that
    refuses the connection is neither unloaded nor forgotten. *)
Theorem Connect_resolves_then_forwards (E : Env) (factory : ptr)
    (self : PhysicsWrapper.this) (tr : Trace) (pModule pInterface : ptr) :
  PhysicsWrapper.m_pActualPhysicsInterface self = nullptr ->
  Sys_LoadInterface_result E (selected_module E) (VPHYSICS_INTERFACE_VERSION E) tr
    = Some (pModule, pInterface) ->
  let loaded := {| PhysicsWrapper.m_pActualPhysicsModule := pModule;
                   PhysicsWrapper.m_pActualPhysicsInterface := pInterface |} in
  let tr1 := EvCall pInterface (OnPhysics (IPhysics.Connect factory))
               :: EvLoad (selected_module E) (VPHYSICS_INTERFACE_VERSION E) :: tr in
  PhysicsWrapper.Connect E factory self tr =
    Returns (respond E (EvLoad (selected_module E) (VPHYSICS_INTERFACE_VERSION E) :: tr)
               pInterface (OnPhysics (IPhysics.Connect factory)))
            loaded tr1 /\
  unload_events tr1 = unload_events tr /\
  PhysicsWrapper.InitWrapper E loaded tr1 = Returns true loaded tr1.
Proof.
  intros Hnull Hl loaded tr1.
  pose proof (Sys_LoadInterface_result_nonnull _ _ _ _ _ _ Hl) as Hpd.
  split; [|split].
  - exact (Connect_load_succeeds E factory self tr pModule pInterface Hnull Hl).
  - reflexivity.
  - apply InitWrapper_resolved. exact Hpd.
Qed.

Lemma Connect_resolves_then_forwards_witness :
  PhysicsWrapper.Connect (refusing_host loader_loads) 77 PhysicsWrapper.s_PhysicsInterface [] =
    Returns false active_facade
      [EvCall 8192 (OnPhysics (IPhysics.Connect 77));
       EvLoad "vphysics_jolt_sse2.dll" "VPhysics031"] /\
  unload_events [EvCall 8192 (OnPhysics (IPhysics.Connect 77));
                 EvLoad "vphysics_jolt_sse2.dll" "VPhysics031"] = [] /\
  PhysicsWrapper.InitWrapper (refusing_host loader_loads) active_facade
      [EvCall 8192 (OnPhysics (IPhysics.Connect 77));
       EvLoad "vphysics_jolt_sse2.dll" "VPhysics031"] =
    Returns true active_facade
      [EvCall 8192 (OnPhysics (IPhysics.Connect 77));
       EvLoad "vphysics_jolt_sse2.dll" "VPhysics031"].
Proof.
  exact (Connect_resolves_then_forwards (refusing_host loader_loads) 77
           PhysicsWrapper.s_PhysicsInterface [] 4096 8192 eq_refl eq_refl).
Defined.

(** ** Sequences of calls on a resolved facade *)

Lemma filter_none (p q : Event -> bool) (l : Trace) :
  (forall e : Event, q e = true -> p e = false) ->
  forallb q l = true -> filter p l = [].
Proof.
  intros Hpq. induction l as [|e l IH]; [reflexivity|].
  simpl. intros H. apply andb_true_iff in H as [He Hl].
  rewrite (Hpq e He). apply IH, Hl.
Qed.

Lemma filter_all (p : Event -> bool) (l : Trace) :
  forallb p l = true -> filter p l = l.
Proof.
  induction l as [|e l IH]; [reflexivity|].
  simpl. intros H. apply andb_true_iff in H as [He Hl].
  rewrite He, (IH Hl). reflexivity.
Qed.

Lemma msg_is_nothing_else (e : Event) :
  is_msg e = true -> is_call e = false /\ is_load e = false /\ is_unload e = false.
Proof. destruct e; simpl; intros H; try discriminate H; auto. Qed.

Lemma unload_is_nothing_else (e : Event) :
  is_unload e = true -> is_call e = false /\ is_load e = false /\ is_msg e = false.
Proof. destruct e; simpl; intros H; try discriminate H; auto. Qed.

Section CallSequences.
Variables (S : Type) (method : ctype -> Type).
Variable inj : forall t : ctype, method t -> Call t.
Variable invoke : forall t : ctype, method t -> M S (val t).
Variable post_of : {t : ctype & method t} -> Trace.
Variables (d : ptr) (self : S).

Hypothesis post_unloads : forall a, forallb is_unload (post_of a) = true.
Hypothesis step :
  forall (t : ctype) (m : method t) (tr : Trace),
  exists (pre : Trace) (v : val t),
    forallb is_msg pre = true /\
    invoke t m self tr =
      Returns v self (post_of (existT _ t m) ++ EvCall d (inj t m) :: pre ++ tr).

Lemma invoke_each_on_resolved (ms : list {t : ctype & method t}) (tr : Trace) :
  exists tr' : Trace,
    invoke_each invoke ms self tr = Returns tt self tr' /\
    delegate_calls tr' = rev (calls_on inj d ms) ++ delegate_calls tr /\
    loads tr' = loads tr /\
    unload_events tr' = flat_map post_of (rev ms) ++ unload_events tr.
Proof.
  revert tr. induction ms as [|[t m] rest IH]; intros tr.
  - exists tr. repeat match goal with |- _ /\ _ => split end; reflexivity.
  - destruct (step t m tr) as (pre & v & Hpre & Hrun).
    destruct (IH (post_of (existT _ t m) ++ EvCall d (inj t m) :: pre ++ tr))
      as (tr' & Hseq & Hcalls & Hloads & Hunloads).
    exists tr'. repeat match goal with |- _ /\ _ => split end.
    + simpl. unfold bind. rewrite Hrun. exact Hseq.
    + rewrite Hcalls. unfold delegate_calls.
      rewrite filter_app. simpl. rewrite filter_app.
      rewrite (filter_none is_call is_unload) by
        (exact (post_unloads _) || (intros e He; apply unload_is_nothing_else, He)).
      rewrite (filter_none is_call is_msg) by
        (exact Hpre || (intros e He; apply msg_is_nothing_else, He)).
      simpl. rewrite <- app_assoc. reflexivity.
    + rewrite Hloads. unfold loads.
      rewrite filter_app. simpl. rewrite filter_app.
      rewrite (filter_none is_load is_unload) by
        (exact (post_unloads _) || (intros e He; apply unload_is_nothing_else, He)).
      rewrite (filter_none is_load is_msg) by
        (exact Hpre || (intros e He; apply msg_is_nothing_else, He)).
      reflexivity.
    + rewrite Hunloads. unfold unload_events.
      rewrite filter_app. simpl. rewrite filter_app.
      rewrite (filter_all is_unload _ (post_unloads _)).
      rewrite (filter_none is_unload is_msg) by
        (exact Hpre || (intros e He; apply msg_is_nothing_else, He)).
      simpl. rewrite flat_map_app. simpl. rewrite app_nil_r, <- app_assoc. reflexivity.
Qed.
End CallSequences.

Lemma PhysicsWrapper_step (E : Env) (self : PhysicsWrapper.this) :
  PhysicsWrapper.m_pActualPhysicsInterface self <> nullptr ->
  forall (t : ctype) (m : IPhysics.method t) (tr : Trace),
  exists (pre : Trace) (v : val t),
    forallb is_msg pre = true /\
    PhysicsWrapper.invoke E m self tr =
      Returns v self
        (Disconnect_unloads (PhysicsWrapper.m_pActualPhysicsModule self) (existT _ t m)
           ++ EvCall (PhysicsWrapper.m_pActualPhysicsInterface self) (OnPhysics m)
           :: pre ++ tr).
Proof.
  intros H t m tr. exists []. 
  destruct (resolves_first m) eqn:Hm.
  - destruct m; try discriminate Hm; eexists; (split; [reflexivity|]); simpl.
    + apply Connect_resolved, H.
    + apply QueryInterface_resolved, H.
  - destruct self as [pm pd]. simpl in H.
    assert ((pd =? 0) = false) as Hd by (apply Z.eqb_neq, H).
    destruct m; try discriminate Hm; eexists; (split; [reflexivity|]);
      run_override; rewrite Hd; reflexivity.
Qed.

Lemma PhysicsSurfacePropsWrapper_step (E : Env) (self : PhysicsSurfacePropsWrapper.this) :
  PhysicsSurfacePropsWrapper.m_pActualPhysicsSurfacePropsInterface self <> nullptr ->
  forall (t : ctype) (m : IJoltPhysicsSurfaceProps.method t) (tr : Trace),
  exists (pre : Trace) (v : val t),
    forallb is_msg pre = true /\
    PhysicsSurfacePropsWrapper.invoke E m self tr =
      Returns v self
        ([] ++ EvCall (PhysicsSurfacePropsWrapper.m_pActualPhysicsSurfacePropsInterface self)
                 (OnSurfaceProps m)
            :: pre ++ tr).
Proof.
  intros H t m tr. destruct self as [pm pd]. simpl in H.
  assert ((pd =? 0) = false) as Hd by (apply Z.eqb_neq, H).
  destruct m; eexists (cons (EvMsg _ _) nil), _; (split; [reflexivity|]);
    run_override; rewrite Hd; reflexivity.
Qed.

Lemma PhysicsCollisionWrapper_step (E : Env) (self : PhysicsCollisionWrapper.this) :
  PhysicsCollisionWrapper.m_pActualPhysicsCollisionInterface self <> nullptr ->
  forall (t : ctype) (m : IJoltPhysicsCollision.method t) (tr : Trace),
  exists (pre : Trace) (v : val t),
    forallb is_msg pre = true /\
    PhysicsCollisionWrapper.invoke E m self tr =
      Returns v self
        ([] ++ EvCall (PhysicsCollisionWrapper.m_pActualPhysicsCollisionInterface self)
                 (OnCollision m)
            :: pre ++ tr).
Proof.
  intros H t m tr. destruct self as [pm pd]. simpl in H.
  assert ((pd =? 0) = false) as Hd by (apply Z.eqb_neq, H).
  destruct m;
    first [ eexists (cons (EvMsg _ _) nil), _; (split; [reflexivity|]);
            run_override; rewrite Hd; reflexivity
          | eexists nil, _; (split; [reflexivity|]);
            run_override; rewrite Hd; reflexivity ].
Qed.

(** X5: on a resolved environment facade any sequence of interface calls
    runs to the end and leaves both fields as they were; the delegate
    receives exactly those calls, in order and with their arguments; no
    module is loaded; and every [Disconnect] in the sequence unloads the
    same stored module handle again, however often it occurs. *)
Theorem PhysicsWrapper_call_sequence (E : Env) (self : PhysicsWrapper.this)
    (ms : list {t : ctype & IPhysics.method t}) (tr : Trace) :
  PhysicsWrapper.m_pActualPhysicsInterface self <> nullptr ->
  exists tr' : Trace,
    invoke_each (@PhysicsWrapper.invoke E) ms self tr = Returns tt self tr' /\
    delegate_calls tr' =
      rev (calls_on (@OnPhysics) (PhysicsWrapper.m_pActualPhysicsInterface self) ms)
        ++ delegate_calls tr /\
    loads tr' = loads tr /\
    unload_events tr' =
      flat_map (Disconnect_unloads (PhysicsWrapper.m_pActualPhysicsModule self)) (rev ms)
        ++ unload_events tr.
Proof.
  intros H.
  apply (invoke_each_on_resolved _ _ (@OnPhysics) (@PhysicsWrapper.invoke E)
           (Disconnect_unloads (PhysicsWrapper.m_pActualPhysicsModule self))
           (PhysicsWrapper.m_pActualPhysicsInterface self) self).
  - intros [t m]. unfold Disconnect_unloads. destruct (is_disconnect _); reflexivity.
  - apply PhysicsWrapper_step, H.
Qed.

Lemma PhysicsWrapper_call_sequence_witness :
  exists tr' : Trace,
    invoke_each (@PhysicsWrapper.invoke (host loader_loads))
      [existT _ _ (IPhysics.Connect 77); existT _ _ (IPhysics.FindCollisionSet 3);
       existT _ _ IPhysics.Disconnect; existT _ _ IPhysics.Disconnect]
      active_facade [] = Returns tt active_facade tr' /\
    delegate_calls tr' =
      [EvCall 8192 (OnPhysics IPhysics.Disconnect);
       EvCall 8192 (OnPhysics IPhysics.Disconnect);
       EvCall 8192 (OnPhysics (IPhysics.FindCollisionSet 3));
       EvCall 8192 (OnPhysics (IPhysics.Connect 77))] /\
    loads tr' = 0%nat /\
    unload_events tr' = [EvUnload 4096; EvUnload 4096].
Proof.
  assert (PhysicsWrapper.m_pActualPhysicsInterface active_facade <> nullptr) as H
    by (simpl; unfold nullptr; lia).
  exact (PhysicsWrapper_call_sequence (host loader_loads) active_facade
           [existT _ _ (IPhysics.Connect 77); existT _ _ (IPhysics.FindCollisionSet 3);
            existT _ _ IPhysics.Disconnect; existT _ _ IPhysics.Disconnect] [] H).
Defined.

Lemma PhysicsSurfacePropsWrapper_invoke_each (E : Env) (self : PhysicsSurfacePropsWrapper.this)
    (ms : list {t : ctype & IJoltPhysicsSurfaceProps.method t}) (tr : Trace) :
  PhysicsSurfacePropsWrapper.m_pActualPhysicsSurfacePropsInterface self <> nullptr ->
  exists tr' : Trace,
    invoke_each (@PhysicsSurfacePropsWrapper.invoke E) ms self tr = Returns tt self tr' /\
    delegate_calls tr' =
      rev (calls_on (@OnSurfaceProps) (PhysicsSurfacePropsWrapper.m_pActualPhysicsSurfacePropsInterface self) ms) ++ delegate_calls tr /\
    loads tr' = loads tr /\
    unload_events tr' = unload_events tr.
Proof.
  intros H.
  destruct (invoke_each_on_resolved _ _ (@OnSurfaceProps)
              (@PhysicsSurfacePropsWrapper.invoke E) (fun _ => [])
              (PhysicsSurfacePropsWrapper.m_pActualPhysicsSurfacePropsInterface self) self
              (fun _ => eq_refl) (PhysicsSurfacePropsWrapper_step E self H) ms tr)
    as (tr' & Hrun & Hcalls & Hloads & Hunloads).
  exists tr'. repeat match goal with |- _ /\ _ => split end; try assumption.
  rewrite Hunloads. clear. induction (rev ms) as [|a l IH]; [reflexivity | exact IH].
Qed.

(** X6: on a resolved surface-properties facade any sequence of interface
    calls runs to the end and leaves both fields as they were; the delegate
    receives exactly those calls, in order and with their arguments; no
    module is loaded and none is unloaded. *)
Theorem PhysicsSurfacePropsWrapper_call_sequence (E : Env)
    (self : PhysicsSurfacePropsWrapper.this)
    (ms : list {t : ctype & IJoltPhysicsSurfaceProps.method t}) (tr : Trace) :
  PhysicsSurfacePropsWrapper.m_pActualPhysicsSurfacePropsInterface self <> nullptr ->
  exists tr' : Trace,
    invoke_each (@PhysicsSurfacePropsWrapper.invoke E) ms self tr = Returns tt self tr' /\
    delegate_calls tr' =
      rev (calls_on (@OnSurfaceProps)
             (PhysicsSurfacePropsWrapper.m_pActualPhysicsSurfacePropsInterface self) ms)
        ++ delegate_calls tr /\
    loads tr' = loads tr /\
    unload_events tr' = unload_events tr.
Proof. exact (PhysicsSurfacePropsWrapper_invoke_each E self ms tr). Qed.

Lemma PhysicsSurfacePropsWrapper_call_sequence_witness :
  exists tr' : Trace,
    invoke_each (@PhysicsSurfacePropsWrapper.invoke (host loader_loads))
      [existT _ _ (IJoltPhysicsSurfaceProps.GetSurfaceIndex 100);
       existT _ _ IJoltPhysicsSurfaceProps.SurfacePropCount]
      active_surfaceprops [] = Returns tt active_surfaceprops tr' /\
    delegate_calls tr' =
      [EvCall 8192 (OnSurfaceProps IJoltPhysicsSurfaceProps.SurfacePropCount);
       EvCall 8192 (OnSurfaceProps (IJoltPhysicsSurfaceProps.GetSurfaceIndex 100))] /\
    loads tr' = 0%nat /\
    unload_events tr' = [].
Proof.
  assert (PhysicsSurfacePropsWrapper.m_pActualPhysicsSurfacePropsInterface
            active_surfaceprops <> nullptr) as H
    by (simpl; unfold nullptr; lia).
  exact (PhysicsSurfacePropsWrapper_call_sequence (host loader_loads) active_surfaceprops
           [existT _ _ (IJoltPhysicsSurfaceProps.GetSurfaceIndex 100);
            existT _ _ IJoltPhysicsSurfaceProps.SurfacePropCount] [] H).
Defined.

Lemma PhysicsCollisionWrapper_invoke_each (E : Env) (self : PhysicsCollisionWrapper.this)
    (ms : list {t : ctype & IJoltPhysicsCollision.method t}) (tr : Trace) :
  PhysicsCollisionWrapper.m_pActualPhysicsCollisionInterface self <> nullptr ->
  exists tr' : Trace,
    invoke_each (@PhysicsCollisionWrapper.invoke E) ms self tr = Returns tt self tr' /\
    delegate_calls tr' =
      rev (calls_on (@OnCollision) (PhysicsCollisionWrapper.m_pActualPhysicsCollisionInterface self) ms) ++ delegate_calls tr /\
    loads tr' = loads tr /\
    unload_events tr' = unload_events tr.
Proof.
  intros H.
  destruct (invoke_each_on_resolved _ _ (@OnCollision)
              (@PhysicsCollisionWrapper.invoke E) (fun _ => [])
              (PhysicsCollisionWrapper.m_pActualPhysicsCollisionInterface self) self
              (fun _ => eq_refl) (PhysicsCollisionWrapper_step E self H) ms tr)
    as (tr' & Hrun & Hcalls & Hloads & Hunloads).
  exists tr'. repeat match goal with |- _ /\ _ => split end; try assumption.
  rewrite Hunloads. clear. induction (rev ms) as [|a l IH]; [reflexivity | exact IH].
Qed.

(** X7: on a resolved collision facade any sequence of interface calls
    runs to the end and leaves both fields as they were; the delegate
    receives exactly those calls, in order and with their arguments; no
    module is loaded and none is unloaded. *)
Theorem PhysicsCollisionWrapper_call_sequence (E : Env)
    (self : PhysicsCollisionWrapper.this)
    (ms : list {t : ctype & IJoltPhysicsCollision.method t}) (tr : Trace) :
  PhysicsCollisionWrapper.m_pActualPhysicsCollisionInterface self <> nullptr ->
  exists tr' : Trace,
    invoke_each (@PhysicsCollisionWrapper.invoke E) ms self tr = Returns tt self tr' /\
    delegate_calls tr' =
      rev (calls_on (@OnCollision)
             (PhysicsCollisionWrapper.m_pActualPhysicsCollisionInterface self) ms)
        ++ delegate_calls tr /\
    loads tr' = loads tr /\
    unload_events tr' = unload_events tr.
Proof. exact (PhysicsCollisionWrapper_invoke_each E self ms tr). Qed.

Lemma PhysicsCollisionWrapper_call_sequence_witness :
  exists tr' : Trace,
    invoke_each (@PhysicsCollisionWrapper.invoke (host loader_loads))
      [existT _ _ (IJoltPhysicsCollision.CollideVolume 200);
       existT _ _ (IJoltPhysicsCollision.ConvexFree 300)]
      active_collision [] = Returns tt active_collision tr' /\
    delegate_calls tr' =
      [EvCall 8192 (OnCollision (IJoltPhysicsCollision.ConvexFree 300));
       EvCall 8192 (OnCollision (IJoltPhysicsCollision.CollideVolume 200))] /\
    loads tr' = 0%nat /\
    unload_events tr' = [].
Proof.
  assert (PhysicsCollisionWrapper.m_pActualPhysicsCollisionInterface
            active_collision <> nullptr) as H
    by (simpl; unfold nullptr; lia).
  exact (PhysicsCollisionWrapper_call_sequence (host loader_loads) active_collision
           [existT _ _ (IJoltPhysicsCollision.CollideVolume 200);
            existT _ _ (IJoltPhysicsCollision.ConvexFree 300)] [] H).
Defined.

(** ** Construction to destruction of the eager facades *)

(** X8: the whole life of the surface-properties facade.  When the module loads
    at static initialisation, construction, any sequence of calls and
    destruction run to the end: the module is loaded once, the delegate
    receives exactly the calls made, and the destructor unloads exactly the
    handle that the constructor stored.  When the module does not load,
    construction followed at once by destruction still returns, calls no
    delegate, and the destructor hands the loader's unload a null handle. *)
Theorem PhysicsSurfacePropsWrapper_lifetime_balanced (E : Env)
    (ms : list {t : ctype & IJoltPhysicsSurfaceProps.method t}) (tr : Trace) :
  (forall pModule pInterface : ptr,
      Sys_LoadInterface_result E (selected_module E) (VPHYSICS_SURFACEPROPS_INTERFACE_VERSION E)
        (EvMsg "Debug: Entering %s\n" "PhysicsSurfacePropsWrapper" :: tr) = Some (pModule, pInterface) ->
      exists tr' : Trace,
        PhysicsSurfacePropsWrapper_lifetime E ms PhysicsSurfacePropsWrapper.zeroed tr =
          Returns tt
            {| PhysicsSurfacePropsWrapper.m_pActualPhysicsSurfacePropsModule := pModule;
               PhysicsSurfacePropsWrapper.m_pActualPhysicsSurfacePropsInterface := pInterface |} tr' /\
        loads tr' = S (loads tr) /\
        unload_events tr' = EvUnload pModule :: unload_events tr /\
        delegate_calls tr' =
          rev (calls_on (@OnSurfaceProps) pInterface ms) ++ delegate_calls tr) /\
  (Sys_LoadInterface_result E (selected_module E) (VPHYSICS_SURFACEPROPS_INTERFACE_VERSION E)
     (EvMsg "Debug: Entering %s\n" "PhysicsSurfacePropsWrapper" :: tr) = None ->
   exists tr' : Trace,
     PhysicsSurfacePropsWrapper_lifetime E [] PhysicsSurfacePropsWrapper.zeroed tr =
       Returns tt PhysicsSurfacePropsWrapper.zeroed tr' /\
     loads tr' = S (loads tr) /\
     unload_events tr' = EvUnload nullptr :: unload_events tr /\
     delegate_calls tr' = delegate_calls tr).
Proof.
  split.
  - intros pm pd Hl.
    pose proof (Sys_LoadInterface_result_nonnull _ _ _ _ _ _ Hl) as Hpd.
    unfold PhysicsSurfacePropsWrapper_lifetime, bind at 1.
    rewrite PhysicsSurfacePropsWrapper_constructor_run, Hl.
    destruct (PhysicsSurfacePropsWrapper_invoke_each E
                {| PhysicsSurfacePropsWrapper.m_pActualPhysicsSurfacePropsModule := pm;
                   PhysicsSurfacePropsWrapper.m_pActualPhysicsSurfacePropsInterface := pd |} ms
                (EvLoad (selected_module E) (VPHYSICS_SURFACEPROPS_INTERFACE_VERSION E)
                   :: EvMsg "Debug: Entering %s\n" "PhysicsSurfacePropsWrapper" :: tr) Hpd)
      as (tr1 & Hrun & Hcalls & Hloads & Hunloads).
    unfold bind. rewrite Hrun.
    eexists. split; [reflexivity|].
    unfold loads, unload_events, delegate_calls in *. simpl in *.
    rewrite Hcalls, Hloads, Hunloads. auto.
  - intros Hl.
    unfold PhysicsSurfacePropsWrapper_lifetime, bind at 1.
    rewrite PhysicsSurfacePropsWrapper_constructor_run, Hl.
    eexists. split; [reflexivity|].
    repeat match goal with |- _ /\ _ => split end; reflexivity.
Qed.

Lemma PhysicsSurfacePropsWrapper_lifetime_balanced_witness :
  (exists tr' : Trace,
      PhysicsSurfacePropsWrapper_lifetime (host loader_loads)
        [existT _ _ (IJoltPhysicsSurfaceProps.GetSurfaceIndex 100)] PhysicsSurfacePropsWrapper.zeroed [] =
        Returns tt active_surfaceprops tr' /\
      loads tr' = 1%nat /\
      unload_events tr' = [EvUnload 4096] /\
      delegate_calls tr' = [EvCall 8192 (OnSurfaceProps (IJoltPhysicsSurfaceProps.GetSurfaceIndex 100))]) /\
  (exists tr' : Trace,
      PhysicsSurfacePropsWrapper_lifetime (host loader_fails) [] PhysicsSurfacePropsWrapper.zeroed [] =
        Returns tt PhysicsSurfacePropsWrapper.zeroed tr' /\
      loads tr' = 1%nat /\
      unload_events tr' = [EvUnload nullptr] /\
      delegate_calls tr' = []).
Proof.
  split.
  - exact (proj1 (PhysicsSurfacePropsWrapper_lifetime_balanced (host loader_loads)
                    [existT _ _ (IJoltPhysicsSurfaceProps.GetSurfaceIndex 100)] []) 4096 8192 eq_refl).
  - exact (proj2 (PhysicsSurfacePropsWrapper_lifetime_balanced (host loader_fails) [] []) eq_refl).
Defined.


(** X9: the whole life of the collision facade.  When the module loads
    at static initialisation, construction, any sequence of calls and
    destruction run to the end: the module is loaded once, the delegate
    receives exactly the calls made, and the destructor unloads exactly the
    handle that the constructor stored.  When the module does not load,
    construction followed at once by destruction still returns, calls no
    delegate, and the destructor hands the loader's unload a null handle. *)
Theorem PhysicsCollisionWrapper_lifetime_balanced (E : Env)
    (ms : list {t : ctype & IJoltPhysicsCollision.method t}) (tr : Trace) :
  (forall pModule pInterface : ptr,
      Sys_LoadInterface_result E (selected_module E) (VPHYSICS_COLLISION_INTERFACE_VERSION E)
        (EvMsg "Debug: Entering %s\n" "PhysicsCollisionWrapper" :: tr) = Some (pModule, pInterface) ->
      exists tr' : Trace,
        PhysicsCollisionWrapper_lifetime E ms PhysicsCollisionWrapper.zeroed tr =
          Returns tt
            {| PhysicsCollisionWrapper.m_pActualPhysicsCollisionModule := pModule;
               PhysicsCollisionWrapper.m_pActualPhysicsCollisionInterface := pInterface |} tr' /\
        loads tr' = S (loads tr) /\
        unload_events tr' = EvUnload pModule :: unload_events tr /\
        delegate_calls tr' =
          rev (calls_on (@OnCollision) pInterface ms) ++ delegate_calls tr) /\
  (Sys_LoadInterface_result E (selected_module E) (VPHYSICS_COLLISION_INTERFACE_VERSION E)
     (EvMsg "Debug: Entering %s\n" "PhysicsCollisionWrapper" :: tr) = None ->
   exists tr' : Trace,
     PhysicsCollisionWrapper_lifetime E [] PhysicsCollisionWrapper.zeroed tr =
       Returns tt PhysicsCollisionWrapper.zeroed tr' /\
     loads tr' = S (loads tr) /\
     unload_events tr' = EvUnload nullptr :: unload_events tr /\
     delegate_calls tr' = delegate_calls tr).
Proof.
  split.
  - intros pm pd Hl.
    pose proof (Sys_LoadInterface_result_nonnull _ _ _ _ _ _ Hl) as Hpd.
    unfold PhysicsCollisionWrapper_lifetime, bind at 1.
    rewrite PhysicsCollisionWrapper_constructor_run, Hl.
    destruct (PhysicsCollisionWrapper_invoke_each E
                {| PhysicsCollisionWrapper.m_pActualPhysicsCollisionModule := pm;
                   PhysicsCollisionWrapper.m_pActualPhysicsCollisionInterface := pd |} ms
                (EvLoad (selected_module E) (VPHYSICS_COLLISION_INTERFACE_VERSION E)
                   :: EvMsg "Debug: Entering %s\n" "PhysicsCollisionWrapper" :: tr) Hpd)
      as (tr1 & Hrun & Hcalls & Hloads & Hunloads).
    unfold bind. rewrite Hrun.
    eexists. split; [reflexivity|].
    unfold loads, unload_events, delegate_calls in *. simpl in *.
    rewrite Hcalls, Hloads, Hunloads. auto.
  - intros Hl.
    unfold PhysicsCollisionWrapper_lifetime, bind at 1.
    rewrite PhysicsCollisionWrapper_constructor_run, Hl.
    eexists. split; [reflexivity|].
    repeat match goal with |- _ /\ _ => split end; reflexivity.
Qed.

Lemma PhysicsCollisionWrapper_lifetime_balanced_witness :
  (exists tr' : Trace,
      PhysicsCollisionWrapper_lifetime (host loader_loads)
        [existT _ _ (IJoltPhysicsCollision.CollideVolume 200)] PhysicsCollisionWrapper.zeroed [] =
        Returns tt active_collision tr' /\
      loads tr' = 1%nat /\
      unload_events tr' = [EvUnload 4096] /\
      delegate_calls tr' = [EvCall 8192 (OnCollision (IJoltPhysicsCollision.CollideVolume 200))]) /\
  (exists tr' : Trace,
      PhysicsCollisionWrapper_lifetime (host loader_fails) [] PhysicsCollisionWrapper.zeroed [] =
        Returns tt PhysicsCollisionWrapper.zeroed tr' /\
      loads tr' = 1%nat /\
      unload_events tr' = [EvUnload nullptr] /\
      delegate_calls tr' = []).
Proof.
  split.
  - exact (proj1 (PhysicsCollisionWrapper_lifetime_balanced (host loader_loads)
                    [existT _ _ (IJoltPhysicsCollision.CollideVolume 200)] []) 4096 8192 eq_refl).
  - exact (proj2 (PhysicsCollisionWrapper_lifetime_balanced (host loader_fails) [] []) eq_refl).
Defined.


(** ** Where a delegate can come from *)

Lemma PhysicsWrapper_invoke_fields (E : Env) (t : ctype) (m : IPhysics.method t)
    (self self' : PhysicsWrapper.this) (tr tr' : Trace) (v : val t) :
  PhysicsWrapper.invoke E m self tr = Returns v self' tr' ->
  self' = self \/
  (PhysicsWrapper.m_pActualPhysicsInterface self = nullptr /\
   loader_gave E self' /\
   PhysicsWrapper.m_pActualPhysicsInterface self' <> nullptr).
Proof.
  intros Hrun.
  destruct (Z.eq_dec (PhysicsWrapper.m_pActualPhysicsInterface self) nullptr) as [Hnull|Hres].
  - destruct (resolves_first m) eqn:Hm.
    + destruct (Sys_LoadInterface_result E (selected_module E)
                  (VPHYSICS_INTERFACE_VERSION E) tr) as [[pm pd]|] eqn:Hl.
      * right. split; [exact Hnull|].
        assert (self' = {| PhysicsWrapper.m_pActualPhysicsModule := pm;
                           PhysicsWrapper.m_pActualPhysicsInterface := pd |}) as ->.
        { destruct m; try discriminate Hm; simpl in Hrun.
          - rewrite (Connect_load_succeeds E _ self tr pm pd Hnull Hl) in Hrun.
            injection Hrun as _ <- _. reflexivity.
          - rewrite (QueryInterface_load_succeeds E _ self tr pm pd Hnull Hl) in Hrun.
            injection Hrun as _ <- _. reflexivity. }
        split.
        -- exists tr. exact Hl.
        -- simpl. exact (Sys_LoadInterface_result_nonnull _ _ _ _ _ _ Hl).
      * left. destruct m; try discriminate Hm; simpl in Hrun.
        -- rewrite (Connect_load_fails E _ self tr Hnull Hl) in Hrun.
           injection Hrun as _ <- _. reflexivity.
        -- rewrite (QueryInterface_load_fails E _ self tr Hnull Hl) in Hrun.
           injection Hrun as _ <- _. reflexivity.
    + rewrite (PhysicsWrapper_null E t m self tr Hnull Hm) in Hrun. discriminate Hrun.
  - left. destruct (PhysicsWrapper_step E self Hres t m tr) as (pre & v' & _ & Hstep).
    rewrite Hstep in Hrun. injection Hrun as _ <- _. reflexivity.
Qed.

(** X10: whatever interface calls are made on the environment facade, if
    they run to the end the two fields are either what they were before
    or, when the facade was unresolved, exactly a module handle and a
    non-null delegate that the loader returned together for the selected
    module and the IPhysics interface version.  A delegate once stored is
    never replaced. *)
Theorem PhysicsWrapper_delegate_comes_from_loader (E : Env)
    (ms : list {t : ctype & IPhysics.method t})
    (self self' : PhysicsWrapper.this) (tr : Trace) :
  facade_of (invoke_each (@PhysicsWrapper.invoke E) ms self tr) = Some self' ->
  self' = self \/
  (PhysicsWrapper.m_pActualPhysicsInterface self = nullptr /\
   loader_gave E self' /\
   PhysicsWrapper.m_pActualPhysicsInterface self' <> nullptr).
Proof.
  revert self tr. induction ms as [|[t m] rest IH]; intros self tr Hrun.
  - simpl in Hrun. injection Hrun as <-. left. reflexivity.
  - simpl in Hrun. unfold bind in Hrun.
    destruct (PhysicsWrapper.invoke E m self tr) as [v s1 t1|t1] eqn:Hstep;
      [|discriminate Hrun].
    apply PhysicsWrapper_invoke_fields in Hstep.
    apply IH in Hrun.
    destruct Hstep as [->|(Hnull & Hgave & Hres)]; [exact Hrun|].
    destruct Hrun as [->|(Hnull1 & _)].
    + right. auto.
    + contradiction.
Qed.

Lemma PhysicsWrapper_delegate_comes_from_loader_witness :
  active_facade = PhysicsWrapper.s_PhysicsInterface \/
  (PhysicsWrapper.m_pActualPhysicsInterface PhysicsWrapper.s_PhysicsInterface = nullptr /\
   loader_gave (host loader_loads) active_facade /\
   PhysicsWrapper.m_pActualPhysicsInterface active_facade <> nullptr).
Proof.
  exact (PhysicsWrapper_delegate_comes_from_loader (host loader_loads)
           [existT _ _ (IPhysics.QueryInterface 5); existT _ _ (IPhysics.FindCollisionSet 3)]
           PhysicsWrapper.s_PhysicsInterface active_facade [] eq_refl).
Defined.

(** ** A session of the environment facade *)

(** X11: a session on an unresolved environment facade whose module loads
    runs to the end: the module is loaded once, before anything is
    forwarded; the delegate receives [Connect] with the host's factory,
    then exactly the calls made, then [Disconnect]; the final [Disconnect]
    unloads the handle that was loaded; and the facade still holds that
    handle and the delegate afterwards. *)
Theorem PhysicsWrapper_session_balanced (E : Env) (factory : ptr)
    (ms : list {t : ctype & IPhysics.method t})
    (self : PhysicsWrapper.this) (tr : Trace) (pModule pInterface : ptr) :
  PhysicsWrapper.m_pActualPhysicsInterface self = nullptr ->
  Sys_LoadInterface_result E (selected_module E) (VPHYSICS_INTERFACE_VERSION E) tr
    = Some (pModule, pInterface) ->
  exists tr' : Trace,
    PhysicsWrapper_session E factory ms self tr =
      Returns tt
        {| PhysicsWrapper.m_pActualPhysicsModule := pModule;
           PhysicsWrapper.m_pActualPhysicsInterface := pInterface |} tr' /\
    loads tr' = S (loads tr) /\
    delegate_calls tr' =
      EvCall pInterface (OnPhysics IPhysics.Disconnect)
        :: rev (calls_on (@OnPhysics) pInterface ms)
        ++ EvCall pInterface (OnPhysics (IPhysics.Connect factory))
        :: delegate_calls tr /\
    unload_events tr' =
      EvUnload pModule
        :: flat_map (Disconnect_unloads pModule) (rev ms) ++ unload_events tr.
Proof.
  intros Hnull Hl.
  pose proof (Sys_LoadInterface_result_nonnull _ _ _ _ _ _ Hl) as Hpd.
  set (loaded := {| PhysicsWrapper.m_pActualPhysicsModule := pModule;
                    PhysicsWrapper.m_pActualPhysicsInterface := pInterface |}).
  assert (PhysicsWrapper.m_pActualPhysicsInterface loaded <> nullptr) as Hres by exact Hpd.
  unfold PhysicsWrapper_session, bind at 1.
  rewrite (Connect_load_succeeds E factory self tr pModule pInterface Hnull Hl).
  fold loaded.
  destruct (invoke_each_on_resolved _ _ (@OnPhysics) (@PhysicsWrapper.invoke E)
              (Disconnect_unloads pModule) pInterface loaded
              (fun a => match a with
                        | existT _ _ m =>
                            match m with
                            | IPhysics.Disconnect => eq_refl
                            | _ => eq_refl
                            end
                        end)
              (PhysicsWrapper_step E loaded Hres) ms
              (EvCall pInterface (OnPhysics (IPhysics.Connect factory))
                 :: EvLoad (selected_module E) (VPHYSICS_INTERFACE_VERSION E) :: tr))
    as (tr1 & Hrun & Hcalls & Hloads & Hunloads).
  unfold bind at 1. rewrite Hrun.
  unfold PhysicsWrapper.Disconnect, bind at 1.
  rewrite (forward_resolved E _ IPhysics.Disconnect loaded tr1 Hres).
  eexists. split; [reflexivity|].
  unfold loads, unload_events, delegate_calls in *. simpl in *.
  rewrite Hcalls, Hloads, Hunloads. auto.
Qed.

Lemma PhysicsWrapper_session_balanced_witness :
  exists tr' : Trace,
    PhysicsWrapper_session (host loader_loads) 77
      [existT _ _ IPhysics.Init; existT _ _ (IPhysics.FindCollisionSet 3)]
      PhysicsWrapper.s_PhysicsInterface [] = Returns tt active_facade tr' /\
    loads tr' = 1%nat /\
    delegate_calls tr' =
      [EvCall 8192 (OnPhysics IPhysics.Disconnect);
       EvCall 8192 (OnPhysics (IPhysics.FindCollisionSet 3));
       EvCall 8192 (OnPhysics IPhysics.Init);
       EvCall 8192 (OnPhysics (IPhysics.Connect 77))] /\
    unload_events tr' = [EvUnload 4096].
Proof.
  exact (PhysicsWrapper_session_balanced (host loader_loads) 77
           [existT _ _ IPhysics.Init; existT _ _ (IPhysics.FindCollisionSet 3)]
           PhysicsWrapper.s_PhysicsInterface [] 4096 8192 eq_refl eq_refl).
Defined.
